(** * DataTransformer (src/etl/transform.py): a shallow embedding

    The transform stage of the Spotify/YouTube pipeline is a collection of
    methods over loosely typed Python dictionaries.  The embedding keeps
    that shape: raw and transformed records are Python values ([pyval]),
    dictionaries are insertion-ordered association lists, floats are
    IEEE-754 binary64 numbers (the [spec_float] model of the standard
    library, with its correctly rounded operations), and every operation
    that can raise a Python exception returns a [result]. *)

From Stdlib Require Import ZArith List String Ascii Bool Lia SpecFloat.
From Stdlib Require Import Sorted Permutation.
Import ListNotations.

Local Open Scope string_scope.
Local Open Scope Z_scope.

Set Implicit Arguments.

(* ===================================================================== *)
(** * Python exceptions and the exception monad                            *)
(* ===================================================================== *)

Inductive exn : Type :=
| ValueError | TypeError | AttributeError | OverflowError
| ZeroDivisionError | KeyError.

Inductive result (A : Type) : Type :=
| Ok (a : A)
| Raise (e : exn).

Arguments Ok {A} a.
Arguments Raise {A} e.

Definition bind {A B : Type} (c : result A) (k : A -> result B) : result B :=
  match c with
  | Ok a => k a
  | Raise e => Raise e
  end.

Notation "x <- c ;; k" := (bind c (fun x => k))
  (at level 61, c at next level, right associativity).

(** [try: body except (e1, e2, ...): handler] -- only the listed
    exceptions are caught, any other one keeps propagating. *)
Definition try_except {A : Type} (body : result A) (caught : exn -> bool)
    (handler : result A) : result A :=
  match body with
  | Ok a => Ok a
  | Raise e => if caught e then handler else Raise e
  end.

(** A bare [except:] and [except Exception] catch every exception of the
    model. *)
Definition any_exn (_ : exn) : bool := true.

Definition is_ok {A : Type} (c : result A) : bool :=
  match c with Ok _ => true | Raise _ => false end.

(** Monadic map, the shape of a list comprehension whose body can raise. *)
Fixpoint mapM {A B : Type} (f : A -> result B) (l : list A) : result (list B) :=
  match l with
  | [] => Ok []
  | x :: xs => y <- f x ;; ys <- mapM f xs ;; Ok (y :: ys)
  end.

(* ===================================================================== *)
(** * Binary64 floats                                                      *)
(* ===================================================================== *)

Module F.

Definition float : Type := spec_float.

Definition prec : Z := 53.
Definition emax : Z := 1024.

Definition add : float -> float -> float := SFadd prec emax.
Definition sub : float -> float -> float := SFsub prec emax.
Definition mul : float -> float -> float := SFmul prec emax.
Definition div : float -> float -> float := SFdiv prec emax.

Definition compare : float -> float -> option comparison := SFcompare.
Definition ltb : float -> float -> bool := SFltb.
Definition leb : float -> float -> bool := SFleb.
Definition eqb : float -> float -> bool := SFeqb.

Definition is_nan (x : float) : bool :=
  match x with S754_nan => true | _ => false end.
Definition is_inf (x : float) : bool :=
  match x with S754_infinity _ => true | _ => false end.
Definition is_zero (x : float) : bool :=
  match x with S754_zero _ => true | _ => false end.

(** An integer as an unrounded float: mantissa of any size, exponent 0. *)
Definition raw_of_Z (z : Z) : float :=
  match z with
  | Z0 => S754_zero false
  | Zpos p => S754_finite false p 0
  | Zneg p => S754_finite true p 0
  end.

(** The integer rounded to the nearest binary64 (ties to even); an
    infinity when it is out of range. *)
Definition of_Z (z : Z) : float := binary_normalize prec emax z 0 false.

(** The correctly rounded quotient of two integers (the divisor is not 0). *)
Definition div_Z (a b : Z) : float := div (raw_of_Z a) (raw_of_Z b).

(** Truncation toward zero of a finite float. *)
Definition trunc (x : float) : option Z :=
  match x with
  | S754_zero _ => Some 0
  | S754_finite s m e =>
      let mag := if 0 <=? e then Z.shiftl (Zpos m) e
                 else Z.shiftr (Zpos m) (- e) in
      Some (if s then - mag else mag)
  | _ => None
  end.

(** Exact comparison of a float with an integer ([None] for a NaN). *)
Definition compare_Z (x : float) (n : Z) : option comparison :=
  match x with
  | S754_nan => None
  | S754_infinity s => Some (if s then Lt else Gt)
  | S754_zero _ => Some (0 ?= n)
  | S754_finite s m e =>
      let v := if s then Zneg m else Zpos m in
      Some (if 0 <=? e then (Z.shiftl v e ?= n)
            else (v ?= Z.shiftl n (- e)))
  end.

(** [max(a, b)] on two floats: [a] unless [b > a]. *)
Definition max (a b : float) : float :=
  match compare b a with
  | Some Gt => b
  | _ => a
  end.

(** The literals of the source. *)
Definition zero : float := S754_zero false.
Definition two52 : positive := 4503599627370496.
Definition one : float := S754_finite false two52 (-52).
Definition f0_2 : float := S754_finite false 7205759403792794 (-55).
Definition f0_3 : float := S754_finite false 5404319552844595 (-54).
Definition f0_4 : float := S754_finite false 7205759403792794 (-54).
Definition f0_5 : float := S754_finite false 4503599627370496 (-53).
Definition f0_6 : float := S754_finite false 5404319552844595 (-53).
Definition f0_7 : float := S754_finite false 6305039478318694 (-53).
Definition f0_8 : float := S754_finite false 7205759403792794 (-53).
Definition f0_9 : float := S754_finite false 8106479329266893 (-53).

(** A magnitude of at most one, of sign [s]: a zero, or a mantissa whose
    exponent puts it below one, or one itself. *)
Definition small (s : bool) (r : float) : Prop :=
  r = S754_zero s \/
  exists m e, r = S754_finite s m e /\ (e <= -53 \/ (e = -52 /\ m = two52)).

End F.

(* ===================================================================== *)
(** * Python values                                                        *)
(* ===================================================================== *)

(** The values a record of the pipeline can hold: what the JSON payloads
    of the two APIs contain, plus the tuples the aggregation builds.
    A dictionary is an association list in insertion order. *)
#[warnings="-register-all"]
Inductive pyval : Type :=
| VNone
| VBool (b : bool)
| VInt (z : Z)
| VFloat (f : F.float)
| VStr (s : string)
| VList (l : list pyval)
| VTuple (l : list pyval)
| VDict (d : list (pyval * pyval)).

Definition dict : Type := list (pyval * pyval).

(* ===================================================================== *)
(** * Strings                                                              *)
(* ===================================================================== *)

(** A Python [str] is modelled by the sequence of its code points, taken
    below 256 (one [ascii] each). *)
Module Str.

Definition code (c : ascii) : N := N_of_ascii c.

Definition chars (s : string) : list ascii := list_ascii_of_string s.
Definition of_chars (l : list ascii) : string := string_of_list_ascii l.

(** [str.isspace] on one character, also the class [\s] of [re]. *)
Definition is_space (c : ascii) : bool :=
  let n := code c in
  ((9 <=? n) && (n <=? 13) || (28 <=? n) && (n <=? 32)
   || (n =? 133) || (n =? 160))%N.

(** A decimal digit, the class [\d] of [re]. *)
Definition is_digit (c : ascii) : bool :=
  let n := code c in ((48 <=? n) && (n <=? 57))%N.

Definition digit_value (c : ascii) : Z := Z.of_N (code c) - 48.

Definition lower_char (c : ascii) : ascii :=
  let n := code c in
  if ((65 <=? n) && (n <=? 90)
      || (192 <=? n) && (n <=? 222) && negb (n =? 215))%N
  then ascii_of_N (n + 32) else c.

(** [s.lower()] *)
Definition lower (s : string) : string := of_chars (map lower_char (chars s)).

Fixpoint lstrip_chars (l : list ascii) : list ascii :=
  match l with
  | c :: l' => if is_space c then lstrip_chars l' else l
  | [] => []
  end.

(** [s.strip()] *)
Definition strip (s : string) : string :=
  of_chars (rev (lstrip_chars (rev (lstrip_chars (chars s))))).

(** [re.sub(r'\s+', ' ', s)]: every maximal run of white space becomes
    one space.  [in_run] tells that the previous character was white
    space. *)
Fixpoint collapse_chars (in_run : bool) (l : list ascii) : list ascii :=
  match l with
  | [] => []
  | c :: l' =>
      if is_space c
      then (if in_run then collapse_chars true l'
            else " "%char :: collapse_chars true l')
      else c :: collapse_chars false l'
  end.

Definition collapse_spaces (s : string) : string :=
  of_chars (collapse_chars false (chars s)).

Fixpoint is_prefix (p l : list ascii) : bool :=
  match p, l with
  | [], _ => true
  | a :: p', b :: l' => Ascii.eqb a b && is_prefix p' l'
  | _ :: _, [] => false
  end.

Fixpoint contains_chars (p l : list ascii) : bool :=
  is_prefix p l ||
  match l with
  | [] => false
  | _ :: l' => contains_chars p l'
  end.

(** [sub in s] *)
Definition contains (sub s : string) : bool :=
  contains_chars (chars sub) (chars s).

(** [s[:n]] *)
Definition take (n : nat) (s : string) : string :=
  of_chars (firstn n (chars s)).

(** [s.replace('Z', '')] *)
Definition remove_Z (s : string) : string :=
  of_chars (filter (fun c => negb (Ascii.eqb c "Z"%char)) (chars s)).

(** [s.replace('PT', '')] *)
Fixpoint remove_PT_chars (l : list ascii) : list ascii :=
  match l with
  | c :: l' =>
      match l' with
      | d :: l'' =>
          if Ascii.eqb c "P"%char && Ascii.eqb d "T"%char
          then remove_PT_chars l''
          else c :: remove_PT_chars l'
      | [] => [c]
      end
  | [] => []
  end.

Definition remove_PT (s : string) : string :=
  of_chars (remove_PT_chars (chars s)).

(** [s.split('.')[0]] *)
Fixpoint before_dot_chars (l : list ascii) : list ascii :=
  match l with
  | [] => []
  | c :: l' => if Ascii.eqb c "."%char then [] else c :: before_dot_chars l'
  end.

Definition before_dot (s : string) : string :=
  of_chars (before_dot_chars (chars s)).

(** The value of a run of decimal digits. *)
Definition digits_value (l : list ascii) : Z :=
  fold_left (fun acc c => 10 * acc + digit_value c) l 0.

(** [re.search(r'(\d+)U', s)] for a unit letter [U]: the leftmost run of
    digits that is directly followed by [U]; [run] holds, in reverse, the
    digits read since the last character that was not one. *)
Fixpoint search_digits_before (u : ascii) (run : list ascii) (l : list ascii)
    : option (list ascii) :=
  match l with
  | [] => None
  | c :: l' =>
      if is_digit c then search_digits_before u (c :: run) l'
      else if Ascii.eqb c u && negb (match run with [] => true | _ => false end)
      then Some (rev run)
      else search_digits_before u [] l'
  end.

Definition search_number (u : ascii) (s : string) : option Z :=
  option_map digits_value (search_digits_before u [] (chars s)).

(** ** [int(s)] and [float(s)] on a string *)

(** [digit (["_"] digit)*]: the digits of a digit part, [None] when the
    text is not one.  [prev] is the kind of the previous character:
    0 at the start, 1 after a digit, 2 after an underscore. *)
Fixpoint digitpart (prev : nat) (l : list ascii) : option (list ascii) :=
  match l with
  | [] => match prev with 1%nat => Some [] | _ => None end
  | c :: l' =>
      if is_digit c then option_map (cons c) (digitpart 1 l')
      else if Ascii.eqb c "_"%char
      then match prev with 1%nat => digitpart 2 l' | _ => None end
      else None
  end.

Definition split_sign (l : list ascii) : bool * list ascii :=
  match l with
  | c :: l' =>
      if Ascii.eqb c "-"%char then (true, l')
      else if Ascii.eqb c "+"%char then (false, l')
      else (false, l)
  | [] => (false, [])
  end.

(** [int(s)]: surrounding white space, an optional sign, a digit part.
    (The limit recent interpreters put on the number of digits is left
    out.) *)
Definition parse_int (s : string) : option Z :=
  let '(neg, body) := split_sign (chars (strip s)) in
  match digitpart 0 body with
  | Some ds => Some (if neg then - digits_value ds else digits_value ds)
  | None => None
  end.

(** The text before and after the first character satisfying [p]. *)
Fixpoint break_at (p : ascii -> bool) (l : list ascii)
    : list ascii * option (list ascii) :=
  match l with
  | [] => ([], None)
  | c :: l' =>
      if p c then ([], Some l')
      else let '(a, b) := break_at p l' in (c :: a, b)
  end.

Definition is_e (c : ascii) : bool :=
  Ascii.eqb c "e"%char || Ascii.eqb c "E"%char.
Definition is_dot (c : ascii) : bool := Ascii.eqb c "."%char.

(** A possibly empty digit part. *)
Definition digitpart_opt (l : list ascii) : option (list ascii) :=
  match l with [] => Some [] | _ => digitpart 0 l end.

(** [number ::= [digitpart] "." digitpart | digitpart ["."]]: the digits
    before and after the point. *)
Definition parse_number (l : list ascii) : option (list ascii * list ascii) :=
  let '(ip, rest) := break_at is_dot l in
  match rest with
  | None =>
      match digitpart 0 ip with Some a => Some (a, []) | None => None end
  | Some fp =>
      match digitpart_opt ip, digitpart_opt fp with
      | Some a, Some b =>
          match a, b with [], [] => None | _, _ => Some (a, b) end
      | _, _ => None
      end
  end.

(** [exponent ::= ("e" | "E") [sign] digitpart] *)
Definition parse_exponent (l : list ascii) : option Z :=
  let '(neg, body) := split_sign l in
  match digitpart 0 body with
  | Some ds => Some (if neg then - digits_value ds else digits_value ds)
  | None => None
  end.

(** The correctly rounded value of [d * 10 ^ e], with the sign [neg]. *)
Definition decimal_value (neg : bool) (d e : Z) : F.float :=
  if d =? 0 then S754_zero neg
  else
    let d' := if neg then - d else d in
    if 0 <=? e then F.of_Z (d' * 10 ^ e)
    else F.div_Z d' (10 ^ (- e)).

(** [float(s)] *)
Definition parse_float (s : string) : option F.float :=
  let '(neg, body) := split_sign (chars (strip s)) in
  let word := of_chars (map lower_char body) in
  if String.eqb word "inf" || String.eqb word "infinity"
  then Some (S754_infinity neg)
  else if String.eqb word "nan" then Some S754_nan
  else
    let '(num, ex) := break_at is_e body in
    match parse_number num with
    | None => None
    | Some (ip, fp) =>
        let d := digits_value (ip ++ fp) in
        let scale := - Z.of_nat (List.length fp) in
        match ex with
        | None => Some (decimal_value neg d scale)
        | Some el =>
            match parse_exponent el with
            | Some e => Some (decimal_value neg d (e + scale))
            | None => None
            end
        end
    end.

End Str.

Module Py.

(** ** Numbers *)

Inductive num : Type :=
| NInt (z : Z)
| NFloat (f : F.float).

(** [bool] is a subclass of [int]: [True] is 1 and [False] is 0. *)
Definition as_num (v : pyval) : option num :=
  match v with
  | VBool b => Some (NInt (if b then 1 else 0))
  | VInt z => Some (NInt z)
  | VFloat f => Some (NFloat f)
  | _ => None
  end.

(** Conversion of an [int] to a [float]; too large an integer raises. *)
Definition float_of_int (z : Z) : result F.float :=
  let f := F.of_Z z in
  if F.is_inf f then Raise OverflowError else Ok f.

Definition to_float (n : num) : result F.float :=
  match n with
  | NInt z => float_of_int z
  | NFloat f => Ok f
  end.

(** Exact numeric comparison, [None] when a NaN is involved. *)
Definition num_compare (a b : num) : option comparison :=
  match a, b with
  | NInt x, NInt y => Some (x ?= y)
  | NFloat x, NFloat y => F.compare x y
  | NFloat x, NInt y => F.compare_Z x y
  | NInt x, NFloat y => option_map CompOpp (F.compare_Z y x)
  end.

(** [<], [>] and [>=].  Where the source orders two values, one of them
    is a number (a literal, a counter, or an operand that arithmetic has
    accepted before), so an operand that is not a number raises
    [TypeError]. *)
Definition compare (a b : pyval) : result (option comparison) :=
  match as_num a, as_num b with
  | Some x, Some y => Ok (num_compare x y)
  | _, _ => Raise TypeError
  end.

Definition lt (a b : pyval) : result bool :=
  c <- compare a b ;;
  Ok (match c with Some Lt => true | _ => false end).

Definition gt (a b : pyval) : result bool :=
  c <- compare a b ;;
  Ok (match c with Some Gt => true | _ => false end).

Definition ge (a b : pyval) : result bool :=
  c <- compare a b ;;
  Ok (match c with Some Gt | Some Eq => true | _ => false end).

(** [a + b] and [a - b].  One operand of every [+], [+=] and [-] of the
    source is a number (a literal, a running total, or an operand that a
    division has accepted before), so an operand that is not a number
    raises [TypeError]. *)
Definition add (a b : pyval) : result pyval :=
  match as_num a, as_num b with
  | Some (NInt x), Some (NInt y) => Ok (VInt (x + y))
  | Some x, Some y =>
      fx <- to_float x ;; fy <- to_float y ;; Ok (VFloat (F.add fx fy))
  | _, _ => Raise TypeError
  end.

Definition sub (a b : pyval) : result pyval :=
  match as_num a, as_num b with
  | Some (NInt x), Some (NInt y) => Ok (VInt (x - y))
  | Some x, Some y =>
      fx <- to_float x ;; fy <- to_float y ;; Ok (VFloat (F.sub fx fy))
  | _, _ => Raise TypeError
  end.

(** [a * b]; one operand of every [*] of the source is a float, or both
    are integers, so an operand that is not a number raises [TypeError]. *)
Definition mul (a b : pyval) : result pyval :=
  match as_num a, as_num b with
  | Some (NInt x), Some (NInt y) => Ok (VInt (x * y))
  | Some x, Some y =>
      fx <- to_float x ;; fy <- to_float y ;; Ok (VFloat (F.mul fx fy))
  | _, _ => Raise TypeError
  end.

(** True division of two integers: correctly rounded, [ZeroDivisionError]
    on a zero divisor, [OverflowError] when the quotient is out of range. *)
Definition int_truediv (x y : Z) : result F.float :=
  if y =? 0 then Raise ZeroDivisionError
  else
    let q := F.div_Z x y in
    if F.is_inf q then Raise OverflowError else Ok q.

Definition float_truediv (x y : F.float) : result F.float :=
  if F.is_zero y then Raise ZeroDivisionError else Ok (F.div x y).

(** [a / b] *)
Definition truediv (a b : pyval) : result pyval :=
  match as_num a, as_num b with
  | Some (NInt x), Some (NInt y) => f <- int_truediv x y ;; Ok (VFloat f)
  | Some x, Some y =>
      fx <- to_float x ;; fy <- to_float y ;;
      f <- float_truediv fx fy ;; Ok (VFloat f)
  | _, _ => Raise TypeError
  end.

(** [abs(a)] *)
Definition abs (a : pyval) : result pyval :=
  match as_num a with
  | Some (NInt x) => Ok (VInt (Z.abs x))
  | Some (NFloat f) => Ok (VFloat (SFabs f))
  | None => Raise TypeError
  end.

(** [max(a, b)] keeps [a] unless [b > a]; [min(a, b)] keeps [a] unless
    [b < a]. *)
Definition max (a b : pyval) : result pyval :=
  c <- gt b a ;; Ok (if c then b else a).

Definition min (a b : pyval) : result pyval :=
  c <- lt b a ;; Ok (if c then b else a).

(** ** Truth value, [len], equality of keys *)

Definition truthy (v : pyval) : bool :=
  match v with
  | VNone => false
  | VBool b => b
  | VInt z => negb (z =? 0)
  | VFloat f => negb (F.is_zero f)
  | VStr s => negb (String.eqb s "")
  | VList l | VTuple l => match l with [] => false | _ => true end
  | VDict d => match d with [] => false | _ => true end
  end.

Definition len (v : pyval) : result Z :=
  match v with
  | VStr s => Ok (Z.of_nat (String.length s))
  | VList l | VTuple l => Ok (Z.of_nat (List.length l))
  | VDict d => Ok (Z.of_nat (List.length d))
  | _ => Raise TypeError
  end.

(** [a == b] on the values that can be dictionary keys, also used where
    the source compares a value with the literal [0].  Numbers compare by
    value across [bool], [int] and [float]; a NaN equals nothing. *)
Fixpoint key_eqb (a b : pyval) {struct a} : bool :=
  match a, b with
  | VNone, VNone => true
  | VStr s, VStr t => String.eqb s t
  | VTuple l, VTuple m =>
      (fix all2 (l : list pyval) (m : list pyval) {struct l} : bool :=
         match l, m with
         | [], [] => true
         | x :: l', y :: m' => key_eqb x y && all2 l' m'
         | _, _ => false
         end) l m
  | _, _ =>
      match as_num a, as_num b with
      | Some x, Some y =>
          match num_compare x y with Some Eq => true | _ => false end
      | _, _ => false
      end
  end.

(** Lists and dictionaries are not hashable. *)
Fixpoint hashable (v : pyval) : bool :=
  match v with
  | VList _ | VDict _ => false
  | VTuple l => forallb hashable l
  | _ => true
  end.

(** ** Dictionaries *)

Fixpoint lookup {V : Type} (d : list (pyval * V)) (k : pyval) : option V :=
  match d with
  | [] => None
  | (k', v) :: d' => if key_eqb k' k then Some v else lookup d' k
  end.

(** [d.get(key, default)] with a string literal as key *)
Definition get (d : dict) (key : string) (default : pyval) : pyval :=
  match lookup d (VStr key) with
  | Some v => v
  | None => default
  end.

(** [d[key]] with a string literal as key *)
Definition item (d : dict) (key : string) : result pyval :=
  match lookup d (VStr key) with
  | Some v => Ok v
  | None => Raise KeyError
  end.

(** [d[k] = v]: the value of an existing key is replaced in place, a new
    key goes to the end. *)
Fixpoint set {V : Type} (d : list (pyval * V)) (k : pyval) (v : V)
    : list (pyval * V) :=
  match d with
  | [] => [(k, v)]
  | (k', v') :: d' =>
      if key_eqb k' k then (k', v) :: d' else (k', v') :: set d' k v
  end.

Definition set_str (d : dict) (key : string) (v : pyval) : dict :=
  set d (VStr key) v.

(** [d.update(other)] *)
Definition update (d other : dict) : dict :=
  fold_left (fun acc kv => set acc (fst kv) (snd kv)) other d.

(** A dictionary display [{k1: v1, ...}] with string keys. *)
Definition literal (kvs : list (string * pyval)) : dict :=
  fold_left (fun acc kv => set_str acc (fst kv) (snd kv)) kvs [].

(** ** Conversions *)

Definition is_none (v : pyval) : bool :=
  match v with VNone => true | _ => false end.

(** [int(v)] *)
Definition int_of (v : pyval) : result Z :=
  match v with
  | VBool b => Ok (if b then 1 else 0)
  | VInt z => Ok z
  | VFloat f =>
      match F.trunc f with
      | Some z => Ok z
      | None => if F.is_nan f then Raise ValueError else Raise OverflowError
      end
  | VStr s =>
      match Str.parse_int s with
      | Some z => Ok z
      | None => Raise ValueError
      end
  | _ => Raise TypeError
  end.

(** [float(v)] *)
Definition float_of (v : pyval) : result F.float :=
  match v with
  | VBool b => Ok (if b then F.one else F.zero)
  | VInt z => float_of_int z
  | VFloat f => Ok f
  | VStr s =>
      match Str.parse_float s with
      | Some f => Ok f
      | None => Raise ValueError
      end
  | _ => Raise TypeError
  end.

(** ** String methods, called on a value that need not be a string *)

Definition str_method (f : string -> string) (v : pyval) : result string :=
  match v with
  | VStr s => Ok (f s)
  | _ => Raise AttributeError
  end.

(** [v.lower()], [v.strip()] *)
Definition lower : pyval -> result string := str_method Str.lower.
Definition strip : pyval -> result string := str_method Str.strip.

(** [for x in v]: the items the iteration yields. *)
Definition iter (v : pyval) : result (list pyval) :=
  match v with
  | VList l | VTuple l => Ok l
  | VStr s => Ok (map (fun c => VStr (String c EmptyString)) (Str.chars s))
  | VDict d => Ok (map fst d)
  | _ => Raise TypeError
  end.

(** ['needle' in v] with a string literal on the left. *)
Definition str_in (needle : string) (v : pyval) : result bool :=
  match v with
  | VStr s => Ok (Str.contains needle s)
  | VList l | VTuple l => Ok (existsb (key_eqb (VStr needle)) l)
  | VDict d => Ok (existsb (fun kv => key_eqb (fst kv) (VStr needle)) d)
  | _ => Raise TypeError
  end.

(** [v[:n]] *)
Definition slice_to (n : nat) (v : pyval) : result pyval :=
  match v with
  | VStr s => Ok (VStr (Str.take n s))
  | VList l => Ok (VList (firstn n l))
  | VTuple l => Ok (VTuple (firstn n l))
  | _ => Raise TypeError
  end.

End Py.

(* ===================================================================== *)
(** * The environment of the transformer                                   *)
(* ===================================================================== *)

(** What the methods take from outside the repository and the embedding
    does not compute: the text an f-string produces for a value, the
    similarity ratio of [difflib], and the clock. *)
Class Env : Type := {
  (** [f"{v}"], that is [str(v)]; a string formats as itself *)
  str_of : pyval -> string;
  str_of_str : forall s : string, str_of (VStr s) = s;
  (** [SequenceMatcher(None, a, b).ratio()] *)
  sequence_ratio : string -> string -> F.float;
  (** [datetime.utcnow().isoformat()] at the n-th record of a batch *)
  utcnow_isoformat : nat -> string
}.

(* ===================================================================== *)
(** * class DataTransformer                                                *)
(* ===================================================================== *)

Module DataTransformer.

(** ** The dictionaries of the regional aggregation *)

(** [regional_data[region] = {...}]: the dictionary a region starts from,
    with its fixed keys as fields.  The three totals are Python numbers,
    since [+=] adds whatever the video holds. *)
Record region_stats : Type := {
  region_code : pyval;
  total_videos : Z;
  total_views : pyval;
  total_likes : pyval;
  total_comments : pyval;
  avg_duration : Z;
  music_videos_count : Z;
  official_videos_count : Z;
  top_channels : list (pyval * Z);
  top_categories : list (pyval * Z);
  created_at : string
}.

(** What a region's dictionary holds once the second loop is done with
    it: averages and top-5 lists added, the two counters deleted. *)
Module Aggregate.
Record t : Type := {
  region_code : pyval;
  total_videos : Z;
  total_views : pyval;
  total_likes : pyval;
  total_comments : pyval;
  avg_duration : Z;
  music_videos_count : Z;
  official_videos_count : Z;
  created_at : string;
  avg_views_per_video : pyval;
  avg_likes_per_video : pyval;
  avg_comments_per_video : pyval;
  avg_engagement_rate : pyval;
  top_5_channels : list (pyval * Z);
  top_5_categories : list (pyval * Z)
}.
End Aggregate.

Section Methods.

Context {env : Env}.

(** ** Auxiliary methods *)

(** [_clean_text] *)
Definition _clean_text (text : pyval) : result string :=
  if negb (Py.truthy text) then Ok ""
  else
    stripped <- Py.strip text ;;
    Ok (Str.collapse_spaces stripped).

(** [except (ValueError, TypeError)] *)
Definition value_or_type (e : exn) : bool :=
  match e with ValueError | TypeError => true | _ => false end.

(** [_safe_int] *)
Definition _safe_int (value : pyval) : result Z :=
  try_except
    (if negb (Py.is_none value) then Py.int_of value else Ok 0)
    value_or_type
    (Ok 0).

(** [_safe_float] *)
Definition _safe_float (value : pyval) : result F.float :=
  try_except
    (if negb (Py.is_none value) then Py.float_of value else Ok F.zero)
    value_or_type
    (Ok F.zero).

(** [_parse_date] *)
Definition _parse_date (date_str : pyval) : result pyval :=
  if negb (Py.truthy date_str) then Ok (VStr "")
  else
    try_except
      (n <- Py.len date_str ;;
       if n =? 4 then Ok (VStr (str_of date_str ++ "-01-01"))
       else if n =? 7 then Ok (VStr (str_of date_str ++ "-01"))
       else Py.slice_to 10 date_str)
      any_exn
      (Ok (VStr "")).

(** [_parse_datetime] *)
Definition _parse_datetime (datetime_str : pyval) : result pyval :=
  if negb (Py.truthy datetime_str) then Ok (VStr "")
  else
    try_except
      (has_t <- Py.str_in "T" datetime_str ;;
       if has_t then
         replaced <- Py.str_method Str.remove_Z datetime_str ;;
         Ok (VStr (Str.before_dot replaced))
       else Ok datetime_str)
      any_exn
      (Ok (VStr "")).

(** [_parse_duration_to_seconds] *)
Definition _parse_duration_to_seconds (duration : pyval) : result Z :=
  if negb (Py.truthy duration) then Ok 0
  else
    try_except
      (duration <- Py.str_method Str.remove_PT duration ;;
       let hours := Str.search_number "H" duration in
       let minutes := Str.search_number "M" duration in
       let seconds := Str.search_number "S" duration in
       let total_seconds := 0 in
       let total_seconds :=
         match hours with
         | Some h => total_seconds + h * 3600
         | None => total_seconds
         end in
       let total_seconds :=
         match minutes with
         | Some m => total_seconds + m * 60
         | None => total_seconds
         end in
       let total_seconds :=
         match seconds with
         | Some s => total_seconds + s
         | None => total_seconds
         end in
       Ok total_seconds)
      any_exn
      (Ok 0).

(** [_categorize_popularity] *)
Definition _categorize_popularity (popularity : Z) : string :=
  if popularity >=? 80 then "very_high"
  else if popularity >=? 60 then "high"
  else if popularity >=? 40 then "medium"
  else if popularity >=? 20 then "low"
  else "very_low".

(** [_categorize_duration] *)
Definition _categorize_duration (duration_seconds : Z) : string :=
  if duration_seconds <? 60 then "very_short"
  else if duration_seconds <? 180 then "short"
  else if duration_seconds <? 300 then "medium"
  else if duration_seconds <? 600 then "long"
  else "very_long".

(** [_categorize_views] *)
Definition _categorize_views (view_count : Z) : string :=
  if view_count >=? 10000000 then "viral"
  else if view_count >=? 1000000 then "very_popular"
  else if view_count >=? 100000 then "popular"
  else if view_count >=? 10000 then "moderate"
  else "low".

(** The five-way and four-way ladders of [_categorize_audio_features]. *)
Definition level5 (x : pyval) (l1 l2 l3 l4 l5 : string) : result string :=
  c1 <- Py.ge x (VFloat F.f0_8) ;;
  if c1 then Ok l1 else
  c2 <- Py.ge x (VFloat F.f0_6) ;;
  if c2 then Ok l2 else
  c3 <- Py.ge x (VFloat F.f0_4) ;;
  if c3 then Ok l3 else
  c4 <- Py.ge x (VFloat F.f0_2) ;;
  if c4 then Ok l4 else Ok l5.

Definition level4 (x : pyval) (l1 l2 l3 l4 : string) : result string :=
  c1 <- Py.ge x (VFloat F.f0_8) ;;
  if c1 then Ok l1 else
  c2 <- Py.ge x (VFloat F.f0_6) ;;
  if c2 then Ok l2 else
  c3 <- Py.ge x (VFloat F.f0_4) ;;
  if c3 then Ok l3 else Ok l4.

(** [_categorize_audio_features] *)
Definition _categorize_audio_features (features : dict) : result dict :=
  let categories : dict := [] in
  let energy := Py.get features "energy" (VInt 0) in
  energy_level <- level5 energy "very_high" "high" "medium" "low" "very_low" ;;
  let categories := Py.set_str categories "energy_level" (VStr energy_level) in
  let valence := Py.get features "valence" (VInt 0) in
  mood <- level5 valence
            "very_positive" "positive" "neutral" "negative" "very_negative" ;;
  let categories := Py.set_str categories "mood" (VStr mood) in
  let danceability := Py.get features "danceability" (VInt 0) in
  danceability_level <- level4 danceability
            "very_danceable" "danceable" "moderate" "not_danceable" ;;
  let categories :=
    Py.set_str categories "danceability_level" (VStr danceability_level) in
  Ok categories.

(** [_calculate_engagement_metrics] *)
Definition _calculate_engagement_metrics (video : dict) : result dict :=
  let metrics : dict := [] in
  let view_count := Py.get video "view_count" (VInt 0) in
  let like_count := Py.get video "like_count" (VInt 0) in
  let comment_count := Py.get video "comment_count" (VInt 0) in
  positive <- Py.gt view_count (VInt 0) ;;
  metrics <-
    (if positive then
       like_rate <- Py.truediv like_count view_count ;;
       let metrics := Py.set_str metrics "like_rate" like_rate in
       comment_rate <- Py.truediv comment_count view_count ;;
       let metrics := Py.set_str metrics "comment_rate" comment_rate in
       total <- Py.add like_count comment_count ;;
       engagement_rate <- Py.truediv total view_count ;;
       Ok (Py.set_str metrics "engagement_rate" engagement_rate)
     else
       let metrics := Py.set_str metrics "like_rate" (VFloat F.zero) in
       let metrics := Py.set_str metrics "comment_rate" (VFloat F.zero) in
       Ok (Py.set_str metrics "engagement_rate" (VFloat F.zero))) ;;
  engagement_rate <- Py.item metrics "engagement_rate" ;;
  scaled <- Py.mul engagement_rate (VInt 1000) ;;
  engagement_score <- Py.min (VInt 100) scaled ;;
  Ok (Py.set_str metrics "engagement_score" engagement_score).

(** [sum(1 for keyword in keywords if keyword in text)] *)
Definition count_keywords (keywords : list string) (text : string) : Z :=
  Z.of_nat (List.length (filter (fun k => Str.contains k text) keywords)).

Definition music_keywords : list string :=
  ["music"; "song"; "official"; "video"; "audio"; "lyrics"; "album"].

(** [_is_music_video] *)
Definition _is_music_video (video : dict) : result bool :=
  title <- Py.lower (Py.get video "title" (VStr "")) ;;
  description <- Py.lower (Py.get video "description" (VStr "")) ;;
  items <- Py.iter (Py.get video "tags" (VList [])) ;;
  tags <- mapM Py.lower items ;;
  let title_score := count_keywords music_keywords title in
  let tag_score :=
    fold_left Z.add (map (count_keywords music_keywords) tags) 0 in
  let has_search_data :=
    Py.truthy (Py.get video "search_artist" VNone)
    && Py.truthy (Py.get video "search_track" VNone) in
  Ok ((title_score >=? 2) || (tag_score >=? 3) || has_search_data).

Definition official_keywords : list string :=
  ["official"; "vevo"; "records"; "music"].

(** [_is_official_content] *)
Definition _is_official_content (video : dict) : result bool :=
  title <- Py.lower (Py.get video "title" (VStr "")) ;;
  channel <- Py.lower (Py.get video "channel_title" (VStr "")) ;;
  Ok (existsb (fun keyword =>
                 Str.contains keyword title || Str.contains keyword channel)
              official_keywords).

(** [_calculate_similarity] *)
Definition _calculate_similarity (track video : dict) : result F.float :=
  track_name <- Py.lower (Py.get track "name" (VStr "")) ;;
  artist_name <- Py.lower (Py.get track "artist_name" (VStr "")) ;;
  video_title <- Py.lower (Py.get video "title" (VStr "")) ;;
  exact <-
    (if Py.truthy (Py.get video "search_artist" VNone)
        && Py.truthy (Py.get video "search_track" VNone)
     then
       search_artist <- Py.lower (Py.get video "search_artist" (VStr "")) ;;
       search_track <- Py.lower (Py.get video "search_track" (VStr "")) ;;
       Ok (String.eqb search_artist artist_name
           && String.eqb search_track track_name)
     else Ok false) ;;
  if exact then Ok F.one
  else
    let name_similarity := sequence_ratio track_name video_title in
    let artist_in_title :=
      if Str.contains artist_name video_title then F.one else F.zero in
    let similarity :=
      F.add (F.mul name_similarity F.f0_7) (F.mul artist_in_title F.f0_3) in
    Ok similarity.

(** [list.sort(key=..., reverse=True)] on keys ordered by [lt]: a stable
    sort into non-increasing order.  An element goes in front of the first
    one whose key is not greater than its own, so that, the list being
    built from its end, equal keys keep their order. *)
Section SortReverse.
Variables (A K : Type) (lt : K -> K -> bool) (key : A -> K).

Fixpoint insert_desc (x : A) (l : list A) : list A :=
  match l with
  | [] => [x]
  | y :: l' =>
      if lt (key x) (key y) then y :: insert_desc x l' else x :: y :: l'
  end.

Definition sort_reverse (l : list A) : list A :=
  fold_right insert_desc [] l.
End SortReverse.

(** The loop of [_find_related_videos]: the videos above the threshold,
    with their scores, in the order of [videos]. *)
Fixpoint related_videos (track : dict) (videos : list dict)
    : result (list (dict * F.float)) :=
  match videos with
  | [] => Ok []
  | video :: rest =>
      similarity_score <- _calculate_similarity track video ;;
      related <- related_videos track rest ;;
      Ok (if F.ltb F.f0_3 similarity_score
          then (video, similarity_score) :: related
          else related)
  end.

(** [_find_related_videos] *)
Definition _find_related_videos (track : dict) (videos : list dict)
    : result (list (dict * F.float)) :=
  track_name <- Py.lower (Py.get track "name" (VStr "")) ;;
  artist_name <- Py.lower (Py.get track "artist_name" (VStr "")) ;;
  related <- related_videos track videos ;;
  let related := sort_reverse F.ltb snd related in
  Ok (firstn 5 related).

(** [_categorize_correlation_strength] *)
Definition _categorize_correlation_strength (similarity_score : F.float)
    : string :=
  let ge x y := match F.compare x y with
                | Some Gt | Some Eq => true
                | _ => false
                end in
  if ge similarity_score F.f0_9 then "very_strong"
  else if ge similarity_score F.f0_7 then "strong"
  else if ge similarity_score F.f0_5 then "moderate"
  else if ge similarity_score F.f0_3 then "weak"
  else "very_weak".

(** [_calculate_duration_similarity] *)
Definition _calculate_duration_similarity (duration1 duration2 : pyval)
    : result pyval :=
  if Py.key_eqb duration1 (VInt 0) || Py.key_eqb duration2 (VInt 0)
  then Ok (VFloat F.zero)
  else
    d <- Py.sub duration1 duration2 ;;
    diff <- Py.abs d ;;
    max_duration <- Py.max duration1 duration2 ;;
    q <- Py.truediv diff max_duration ;;
    r <- Py.sub (VFloat F.one) q ;;
    Py.max (VFloat F.zero) r.

(** [_calculate_cross_platform_metrics] *)
Definition _calculate_cross_platform_metrics (track video : dict)
    : result dict :=
  divisor <- Py.max (Py.get track "popularity" (VInt 1)) (VInt 1) ;;
  spotify_youtube_ratio <-
    Py.truediv (Py.get video "view_count" (VInt 0)) divisor ;;
  weighted <- Py.mul (Py.get track "popularity" (VInt 0)) (VFloat F.f0_3) ;;
  per_10k <- Py.truediv (Py.get video "view_count" (VInt 0)) (VInt 10000) ;;
  capped <- Py.min (VInt 100) per_10k ;;
  views_part <- Py.mul capped (VFloat F.f0_7) ;;
  cross_platform_score <- Py.add weighted views_part ;;
  platform_consistency <-
    _calculate_duration_similarity
      (Py.get track "duration_seconds" (VInt 0))
      (Py.get video "duration_seconds" (VInt 0)) ;;
  Ok (Py.literal
        [("spotify_youtube_ratio", spotify_youtube_ratio);
         ("cross_platform_score", cross_platform_score);
         ("platform_consistency", platform_consistency)]).

(** ** The three record transformations *)

Definition vstr (r : result string) : result pyval :=
  s <- r ;; Ok (VStr s).
Definition vint (r : result Z) : result pyval :=
  z <- r ;; Ok (VInt z).
Definition vfloat (r : result F.float) : result pyval :=
  f <- r ;; Ok (VFloat f).

(** The body of the [try] block of [transform_spotify_tracks], for one
    track; [now] is the reading of the clock. *)
Definition transform_track (now : string) (track : dict) : result dict :=
  name <- vstr (_clean_text (Py.get track "name" (VStr ""))) ;;
  artist_name <- vstr (_clean_text (Py.get track "artist_name" (VStr ""))) ;;
  album_name <- vstr (_clean_text (Py.get track "album_name" (VStr ""))) ;;
  artist_items <- Py.iter (Py.get track "artists" (VList [])) ;;
  artists <- mapM (fun artist => vstr (_clean_text artist)) artist_items ;;
  popularity <- _safe_int (Py.get track "popularity" (VInt 0)) ;;
  duration_ms <- _safe_int (Py.get track "duration_ms" (VInt 0)) ;;
  duration_ms' <- _safe_int (Py.get track "duration_ms" (VInt 0)) ;;
  let duration_seconds := duration_ms' / 1000 in
  release_date <- _parse_date (Py.get track "release_date" (VStr "")) ;;
  total_tracks <- _safe_int (Py.get track "total_tracks" (VInt 0)) ;;
  disc_number <- _safe_int (Py.get track "disc_number" (VInt 1)) ;;
  track_number <- _safe_int (Py.get track "track_number" (VInt 1)) ;;
  market_count <- Py.len (Py.get track "available_markets" (VList [])) ;;
  artist_count <- Py.len (Py.get track "artists" (VList [])) ;;
  artist_count' <- Py.len (Py.get track "artists" (VList [])) ;;
  name_length <- Py.len (Py.get track "name" (VStr "")) ;;
  artist_name_length <- Py.len (Py.get track "artist_name" (VStr "")) ;;
  let transformed_track := Py.literal
    [("track_id", Py.get track "track_id" (VStr ""));
     ("album_id", Py.get track "album_id" (VStr ""));
     ("name", name);
     ("artist_name", artist_name);
     ("album_name", album_name);
     ("artists", VList artists);
     ("popularity", VInt popularity);
     ("duration_ms", VInt duration_ms);
     ("duration_seconds", VInt duration_seconds);
     ("explicit", VBool (Py.truthy (Py.get track "explicit" (VBool false))));
     ("is_local", VBool (Py.truthy (Py.get track "is_local" (VBool false))));
     ("preview_url", Py.get track "preview_url" (VStr ""));
     ("external_urls", Py.get track "external_urls" (VDict []));
     ("release_date", release_date);
     ("total_tracks", VInt total_tracks);
     ("disc_number", VInt disc_number);
     ("track_number", VInt track_number);
     ("available_markets", Py.get track "available_markets" (VList []));
     ("market_count", VInt market_count);
     ("extraction_timestamp", Py.get track "extraction_timestamp" (VStr ""));
     ("source_playlist_id", Py.get track "source_playlist_id" (VStr ""));
     ("data_source", Py.get track "data_source" (VStr "spotify"));
     ("artist_count", VInt artist_count);
     ("is_collaboration", VBool (artist_count' >? 1));
     ("name_length", VInt name_length);
     ("artist_name_length", VInt artist_name_length);
     ("transformed_at", VStr now)] in
  let transformed_track :=
    Py.set_str transformed_track "popularity_category"
      (VStr (_categorize_popularity popularity)) in
  let transformed_track :=
    Py.set_str transformed_track "duration_category"
      (VStr (_categorize_duration duration_seconds)) in
  Ok transformed_track.

(** The body of the [try] block of [transform_spotify_features]. *)
Definition transform_feature (now : string) (feature : dict) : result dict :=
  danceability <- _safe_float (Py.get feature "danceability" (VFloat F.zero)) ;;
  energy <- _safe_float (Py.get feature "energy" (VFloat F.zero)) ;;
  speechiness <- _safe_float (Py.get feature "speechiness" (VFloat F.zero)) ;;
  acousticness <- _safe_float (Py.get feature "acousticness" (VFloat F.zero)) ;;
  instrumentalness <-
    _safe_float (Py.get feature "instrumentalness" (VFloat F.zero)) ;;
  liveness <- _safe_float (Py.get feature "liveness" (VFloat F.zero)) ;;
  valence <- _safe_float (Py.get feature "valence" (VFloat F.zero)) ;;
  loudness <- _safe_float (Py.get feature "loudness" (VFloat F.zero)) ;;
  tempo <- _safe_float (Py.get feature "tempo" (VFloat F.zero)) ;;
  key <- _safe_int (Py.get feature "key" (VInt (-1))) ;;
  mode <- _safe_int (Py.get feature "mode" (VInt (-1))) ;;
  time_signature <- _safe_int (Py.get feature "time_signature" (VInt 4)) ;;
  duration_ms <- _safe_int (Py.get feature "duration_ms" (VInt 0)) ;;
  let transformed_feature := Py.literal
    [("track_id", Py.get feature "id" (VStr ""));
     ("danceability", VFloat danceability);
     ("energy", VFloat energy);
     ("speechiness", VFloat speechiness);
     ("acousticness", VFloat acousticness);
     ("instrumentalness", VFloat instrumentalness);
     ("liveness", VFloat liveness);
     ("valence", VFloat valence);
     ("loudness", VFloat loudness);
     ("tempo", VFloat tempo);
     ("key", VInt key);
     ("mode", VInt mode);
     ("time_signature", VInt time_signature);
     ("duration_ms", VInt duration_ms);
     ("extraction_timestamp",
        Py.get feature "extraction_timestamp" (VStr ""));
     ("data_source", Py.get feature "data_source" (VStr "spotify_features"));
     ("transformed_at", VStr now)] in
  categories <- _categorize_audio_features transformed_feature ;;
  let transformed_feature := Py.update transformed_feature categories in
  d <- Py.item transformed_feature "danceability" ;;
  d4 <- Py.mul d (VFloat F.f0_4) ;;
  e <- Py.item transformed_feature "energy" ;;
  e3 <- Py.mul e (VFloat F.f0_3) ;;
  de <- Py.add d4 e3 ;;
  v <- Py.item transformed_feature "valence" ;;
  v3 <- Py.mul v (VFloat F.f0_3) ;;
  dance_score <- Py.add de v3 ;;
  let transformed_feature :=
    Py.set_str transformed_feature "dance_score" dance_score in
  v <- Py.item transformed_feature "valence" ;;
  v5 <- Py.mul v (VFloat F.f0_5) ;;
  e <- Py.item transformed_feature "energy" ;;
  e3 <- Py.mul e (VFloat F.f0_3) ;;
  ve <- Py.add v5 e3 ;;
  a <- Py.item transformed_feature "acousticness" ;;
  a1 <- Py.sub (VInt 1) a ;;
  a2 <- Py.mul a1 (VFloat F.f0_2) ;;
  mood_score <- Py.add ve a2 ;;
  let transformed_feature :=
    Py.set_str transformed_feature "mood_score" mood_score in
  Ok transformed_feature.

(** The body of the [try] block of [transform_youtube_videos]. *)
Definition transform_video (now : string) (video : dict) : result dict :=
  title <- vstr (_clean_text (Py.get video "title" (VStr ""))) ;;
  description <- _clean_text (Py.get video "description" (VStr "")) ;;
  let description := VStr (Str.take 1000 description) in
  channel_title <-
    vstr (_clean_text (Py.get video "channel_title" (VStr ""))) ;;
  view_count <- _safe_int (Py.get video "view_count" (VInt 0)) ;;
  like_count <- _safe_int (Py.get video "like_count" (VInt 0)) ;;
  dislike_count <- _safe_int (Py.get video "dislike_count" (VInt 0)) ;;
  comment_count <- _safe_int (Py.get video "comment_count" (VInt 0)) ;;
  favorite_count <- _safe_int (Py.get video "favorite_count" (VInt 0)) ;;
  published_at <- _parse_datetime (Py.get video "published_at" (VStr "")) ;;
  published_date <- _parse_date (Py.get video "published_at" (VStr "")) ;;
  duration_seconds <-
    _parse_duration_to_seconds (Py.get video "duration" (VStr "")) ;;
  let transformed_video := Py.literal
    [("video_id", Py.get video "video_id" (VStr ""));
     ("channel_id", Py.get video "channel_id" (VStr ""));
     ("title", title);
     ("description", description);
     ("channel_title", channel_title);
     ("view_count", VInt view_count);
     ("like_count", VInt like_count);
     ("dislike_count", VInt dislike_count);
     ("comment_count", VInt comment_count);
     ("favorite_count", VInt favorite_count);
     ("published_at", published_at);
     ("published_date", published_date);
     ("tags", Py.get video "tags" (VList []));
     ("category_id", Py.get video "category_id" (VStr ""));
     ("default_language", Py.get video "default_language" (VStr ""));
     ("default_audio_language",
        Py.get video "default_audio_language" (VStr ""));
     ("duration", Py.get video "duration" (VStr ""));
     ("duration_seconds", VInt duration_seconds);
     ("dimension", Py.get video "dimension" (VStr ""));
     ("definition", Py.get video "definition" (VStr ""));
     ("caption", Py.get video "caption" (VStr ""));
     ("licensed_content",
        VBool (Py.truthy (Py.get video "licensed_content" (VBool false))));
     ("upload_status", Py.get video "upload_status" (VStr ""));
     ("privacy_status", Py.get video "privacy_status" (VStr ""));
     ("license", Py.get video "license" (VStr ""));
     ("embeddable",
        VBool (Py.truthy (Py.get video "embeddable" (VBool true))));
     ("public_stats_viewable",
        VBool (Py.truthy (Py.get video "public_stats_viewable" (VBool true))));
     ("thumbnails", Py.get video "thumbnails" (VDict []));
     ("extraction_timestamp", Py.get video "extraction_timestamp" (VStr ""));
     ("source_region", Py.get video "source_region" (VStr ""));
     ("search_artist", Py.get video "search_artist" (VStr ""));
     ("search_track", Py.get video "search_track" (VStr ""));
     ("data_source", Py.get video "data_source" (VStr "youtube"));
     ("transformed_at", VStr now)] in
  metrics <- _calculate_engagement_metrics transformed_video ;;
  let transformed_video := Py.update transformed_video metrics in
  let transformed_video :=
    Py.set_str transformed_video "view_category"
      (VStr (_categorize_views view_count)) in
  let transformed_video :=
    Py.set_str transformed_video "duration_category"
      (VStr (_categorize_duration duration_seconds)) in
  is_music_video <- _is_music_video transformed_video ;;
  let transformed_video :=
    Py.set_str transformed_video "is_music_video" (VBool is_music_video) in
  is_official <- _is_official_content transformed_video ;;
  let transformed_video :=
    Py.set_str transformed_video "is_official" (VBool is_official) in
  tags <- Py.item transformed_video "tags" ;;
  tag_count <- Py.len tags ;;
  let transformed_video :=
    Py.set_str transformed_video "tag_count" (VInt tag_count) in
  title' <- Py.item transformed_video "title" ;;
  title_length <- Py.len title' ;;
  let transformed_video :=
    Py.set_str transformed_video "title_length" (VInt title_length) in
  description' <- Py.item transformed_video "description" ;;
  description_length <- Py.len description' ;;
  let transformed_video :=
    Py.set_str transformed_video "description_length"
      (VInt description_length) in
  Ok transformed_video.

(** The [for] loop shared by the three batch methods: each record goes
    through the [try] block; on an exception the handler logs and goes on
    to the next record, otherwise the result is appended.  [n] counts the
    records seen so far. *)
Fixpoint batch_loop (body : string -> dict -> result dict) (n : nat)
    (raw : list dict) (transformed : list dict) : result (list dict) :=
  match raw with
  | [] => Ok transformed
  | record :: rest =>
      transformed <-
        try_except
          (t <- body (utcnow_isoformat n) record ;; Ok (transformed ++ [t])%list)
          any_exn
          (Ok transformed) ;;
      batch_loop body (S n) rest transformed
  end.

(** [transform_spotify_tracks] *)
Definition transform_spotify_tracks (raw_tracks : list dict)
    : result (list dict) :=
  batch_loop transform_track 0 raw_tracks [].

(** [transform_spotify_features] *)
Definition transform_spotify_features (raw_features : list dict)
    : result (list dict) :=
  batch_loop transform_feature 0 raw_features [].

(** [transform_youtube_videos] *)
Definition transform_youtube_videos (raw_videos : list dict)
    : result (list dict) :=
  batch_loop transform_video 0 raw_videos [].

(** ** Correlation *)

(** The dictionary [correlate_spotify_youtube_data] builds for a track and
    one of its related videos, cross-platform metrics included. *)
Definition correlation_record (now : string) (track video : dict)
    (similarity_score : F.float) : result dict :=
  track_id <- Py.item track "track_id" ;;
  video_id <- Py.item video "video_id" ;;
  let correlation_id := VStr (str_of track_id ++ "_" ++ str_of video_id) in
  track_id' <- Py.item track "track_id" ;;
  video_id' <- Py.item video "video_id" ;;
  spotify_track_name <- Py.item track "name" ;;
  spotify_artist_name <- Py.item track "artist_name" ;;
  spotify_popularity <- Py.item track "popularity" ;;
  spotify_duration_seconds <- Py.item track "duration_seconds" ;;
  youtube_title <- Py.item video "title" ;;
  youtube_channel <- Py.item video "channel_title" ;;
  youtube_view_count <- Py.item video "view_count" ;;
  youtube_like_count <- Py.item video "like_count" ;;
  youtube_duration_seconds <- Py.item video "duration_seconds" ;;
  track_seconds <- Py.item track "duration_seconds" ;;
  video_seconds <- Py.item video "duration_seconds" ;;
  difference <- Py.sub track_seconds video_seconds ;;
  duration_difference_seconds <- Py.abs difference ;;
  track_seconds' <- Py.item track "duration_seconds" ;;
  video_seconds' <- Py.item video "duration_seconds" ;;
  duration_similarity <-
    _calculate_duration_similarity track_seconds' video_seconds' ;;
  let correlation := Py.literal
    [("correlation_id", correlation_id);
     ("track_id", track_id');
     ("video_id", video_id');
     ("spotify_track_name", spotify_track_name);
     ("spotify_artist_name", spotify_artist_name);
     ("spotify_popularity", spotify_popularity);
     ("spotify_duration_seconds", spotify_duration_seconds);
     ("youtube_title", youtube_title);
     ("youtube_channel", youtube_channel);
     ("youtube_view_count", youtube_view_count);
     ("youtube_like_count", youtube_like_count);
     ("youtube_duration_seconds", youtube_duration_seconds);
     ("similarity_score", VFloat similarity_score);
     ("correlation_strength",
        VStr (_categorize_correlation_strength similarity_score));
     ("duration_difference_seconds", duration_difference_seconds);
     ("duration_similarity", duration_similarity);
     ("created_at", VStr now);
     ("data_source", VStr "correlation_engine")] in
  metrics <- _calculate_cross_platform_metrics track video ;;
  Ok (Py.update correlation metrics).

(** The inner loop, over the related videos of one track.  A record that
    is appended stays in [correlations] when a later one raises, so the
    loop returns the list it has reached together with its outcome. *)
Fixpoint correlate_related (track : dict) (related : list (dict * F.float))
    (correlations : list dict) : list dict * result unit :=
  match related with
  | [] => (correlations, Ok tt)
  | (video, similarity_score) :: rest =>
      let now := utcnow_isoformat (List.length correlations) in
      match correlation_record now track video similarity_score with
      | Ok correlation =>
          correlate_related track rest (correlations ++ [correlation])%list
      | Raise e => (correlations, Raise e)
      end
  end.

(** The outer loop: whatever the [try] block of a track raises is caught
    and the next track is taken. *)
Fixpoint correlate_tracks (spotify_tracks youtube_videos : list dict)
    (correlations : list dict) : list dict :=
  match spotify_tracks with
  | [] => correlations
  | track :: rest =>
      let correlations :=
        match _find_related_videos track youtube_videos with
        | Ok related => fst (correlate_related track related correlations)
        | Raise _ => correlations
        end in
      correlate_tracks rest youtube_videos correlations
  end.

(** [correlate_spotify_youtube_data] *)
Definition correlate_spotify_youtube_data
    (spotify_tracks youtube_videos : list dict) : list dict :=
  correlate_tracks spotify_tracks youtube_videos [].

(** ** Regional aggregation *)

Definition new_region_stats (region : pyval) (now : string) : region_stats :=
  {| region_code := region;
     total_videos := 0;
     total_views := VInt 0;
     total_likes := VInt 0;
     total_comments := VInt 0;
     avg_duration := 0;
     music_videos_count := 0;
     official_videos_count := 0;
     top_channels := [];
     top_categories := [];
     created_at := now |}.

(** [counters[k] = counters.get(k, 0) + 1] *)
Definition count_key (counters : list (pyval * Z)) (k : pyval)
    : result (list (pyval * Z)) :=
  if Py.hashable k then
    let seen := match Py.lookup counters k with
                | Some c => c
                | None => 0
                end in
    Ok (Py.set counters k (seen + 1))
  else Raise TypeError.

(** One turn of the first loop of [aggregate_regional_data]: the entry of
    the video's region, created if need be, takes the video's counts. *)
Definition aggregate_video (now : string)
    (regional_data : list (pyval * region_stats)) (video : dict)
    : result (list (pyval * region_stats)) :=
  let region := Py.get video "source_region" (VStr "unknown") in
  if negb (Py.hashable region) then Raise TypeError
  else
    let stats :=
      match Py.lookup regional_data region with
      | Some stats => stats
      | None => new_region_stats region now
      end in
    views <- Py.add (total_views stats) (Py.get video "view_count" (VInt 0)) ;;
    likes <- Py.add (total_likes stats) (Py.get video "like_count" (VInt 0)) ;;
    comments <-
      Py.add (total_comments stats) (Py.get video "comment_count" (VInt 0)) ;;
    let music :=
      if Py.truthy (Py.get video "is_music_video" (VBool false))
      then music_videos_count stats + 1 else music_videos_count stats in
    let official :=
      if Py.truthy (Py.get video "is_official" (VBool false))
      then official_videos_count stats + 1 else official_videos_count stats in
    let channel := Py.get video "channel_title" (VStr "unknown") in
    channels <- count_key (top_channels stats) channel ;;
    let category := Py.get video "category_id" (VStr "unknown") in
    categories <- count_key (top_categories stats) category ;;
    Ok (Py.set regional_data region
          {| region_code := region_code stats;
             total_videos := total_videos stats + 1;
             total_views := views;
             total_likes := likes;
             total_comments := comments;
             avg_duration := avg_duration stats;
             music_videos_count := music;
             official_videos_count := official;
             top_channels := channels;
             top_categories := categories;
             created_at := created_at stats |}).

(** The first loop, a left fold over the videos. *)
Fixpoint aggregate_loop (n : nat) (regional_data : list (pyval * region_stats))
    (videos : list dict) : result (list (pyval * region_stats)) :=
  match videos with
  | [] => Ok regional_data
  | video :: rest =>
      regional_data <-
        aggregate_video (utcnow_isoformat n) regional_data video ;;
      aggregate_loop (S n) regional_data rest
  end.

(** [sorted(counters.items(), key=lambda x: x[1], reverse=True)[:5]] *)
Definition top_5 (counters : list (pyval * Z)) : list (pyval * Z) :=
  firstn 5 (sort_reverse Z.ltb snd counters).

(** The body of the second loop: [None] when the region is skipped. *)
Definition finalize (stats : region_stats) : result (option Aggregate.t) :=
  if total_videos stats >? 0 then
    avg_views <- Py.truediv (total_views stats) (VInt (total_videos stats)) ;;
    avg_likes <- Py.truediv (total_likes stats) (VInt (total_videos stats)) ;;
    avg_comments <-
      Py.truediv (total_comments stats) (VInt (total_videos stats)) ;;
    viewed <- Py.gt (total_views stats) (VInt 0) ;;
    rate <-
      (if viewed then
         engaged <- Py.add (total_likes stats) (total_comments stats) ;;
         Py.truediv engaged (total_views stats)
       else Ok (VInt 0)) ;;
    Ok (Some
          {| Aggregate.region_code := region_code stats;
             Aggregate.total_videos := total_videos stats;
             Aggregate.total_views := total_views stats;
             Aggregate.total_likes := total_likes stats;
             Aggregate.total_comments := total_comments stats;
             Aggregate.avg_duration := avg_duration stats;
             Aggregate.music_videos_count := music_videos_count stats;
             Aggregate.official_videos_count := official_videos_count stats;
             Aggregate.created_at := created_at stats;
             Aggregate.avg_views_per_video := avg_views;
             Aggregate.avg_likes_per_video := avg_likes;
             Aggregate.avg_comments_per_video := avg_comments;
             Aggregate.avg_engagement_rate := rate;
             Aggregate.top_5_channels := top_5 (top_channels stats);
             Aggregate.top_5_categories := top_5 (top_categories stats) |})
  else Ok None.

(** The second loop, over [regional_data.items()]. *)
Fixpoint finalize_loop (items : list (pyval * region_stats))
    (aggregated_data : list Aggregate.t) : result (list Aggregate.t) :=
  match items with
  | [] => Ok aggregated_data
  | (region, stats) :: rest =>
      done <- finalize stats ;;
      finalize_loop rest
        (match done with
         | Some a => (aggregated_data ++ [a])%list
         | None => aggregated_data
         end)
  end.

(** [aggregate_regional_data] *)
Definition aggregate_regional_data (youtube_videos : list dict)
    : result (list Aggregate.t) :=
  regional_data <- aggregate_loop 0 [] youtube_videos ;;
  finalize_loop regional_data [].

(** [sum(values)]: the additions start from [0] and go left to right. *)
Definition py_sum (values : list pyval) : result pyval :=
  fold_left (fun acc v => a <- acc ;; Py.add a v) values (Ok (VInt 0)).

End Methods.

End DataTransformer.

(* ===================================================================== *)
(** * Definitions used to state the properties                             *)
(* ===================================================================== *)

Import DataTransformer.

(** An environment to run examples in: the clock stands still, a value
    that is not a string prints as a fixed text, and the ratio tells equal
    strings (1.0) from different ones (0.0). *)
Definition sample_env : Env :=
  {| str_of := fun v => match v with VStr s => s | _ => "<object>" end;
     str_of_str := fun s => eq_refl;
     sequence_ratio := fun a b => if String.eqb a b then F.one else F.zero;
     utcnow_isoformat := fun _ => "2024-01-01T00:00:00" |}.

Section StatementDefinitions.

Context {env : Env}.

(** The score of a video against a track, a NaN where the computation
    raises. *)
Definition score_of (track video : dict) : F.float :=
  match _calculate_similarity track video with
  | Ok s => s
  | Raise _ => S754_nan
  end.

Definition above_threshold (track video : dict) : bool :=
  F.ltb F.f0_3 (score_of track video).

(** What a batch is to return, in the words of the specification: the
    transformed records, in order, of the raw records whose
    transformation does not raise. *)
Fixpoint kept (body : string -> dict -> result dict) (n : nat)
    (raw : list dict) : list dict :=
  match raw with
  | [] => []
  | record :: rest =>
      match body (utcnow_isoformat n) record with
      | Ok t => t :: kept body (S n) rest
      | Raise _ => kept body (S n) rest
      end
  end.

End StatementDefinitions.

(** A video whose title is a string and whose search fields are strings or
    missing. *)
Definition text_video (video : dict) : Prop :=
  (exists t, Py.get video "title" (VStr "") = VStr t) /\
  (exists a, Py.get video "search_artist" (VStr "") = VStr a) /\
  (exists k, Py.get video "search_track" (VStr "") = VStr k).

(** ** The order of floats *)

(** Floats that are not NaN are ordered like their ranks, compared
    lexicographically. *)
Definition float_rank (x : F.float) : Z * Z * Z :=
  match x with
  | S754_infinity true => (-2, 0, 0)
  | S754_finite true m e => (-1, - e, - Zpos m)
  | S754_zero _ => (0, 0, 0)
  | S754_finite false m e => (1, e, Zpos m)
  | S754_infinity false => (2, 0, 0)
  | S754_nan => (3, 0, 0)
  end.

Definition lex3 (a b : Z * Z * Z) : comparison :=
  match fst (fst a) ?= fst (fst b) with
  | Eq => match snd (fst a) ?= snd (fst b) with
          | Eq => snd a ?= snd b
          | c => c
          end
  | c => c
  end.

(** The date coercion as the specification words it. *)
Definition spec_date_coercion (s : string) : string :=
  let n := String.length s in
  if (n =? 4)%nat then s ++ "-01-01"
  else if (n =? 7)%nat then s ++ "-01"
  else if (10 <=? n)%nat then Str.take 10 s
  else "".

(** The metrics of a video nobody has viewed. *)
Definition zero_metrics : dict :=
  [(VStr "like_rate", VFloat F.zero);
   (VStr "comment_rate", VFloat F.zero);
   (VStr "engagement_rate", VFloat F.zero);
   (VStr "engagement_score", VFloat F.zero)].

(** ** Audio features *)

Definition fge (x t : F.float) : bool :=
  match F.compare x t with
  | Some Gt | Some Eq => true
  | _ => false
  end.

Definition flevel5 (x : F.float) (l1 l2 l3 l4 l5 : string) : string :=
  if fge x F.f0_8 then l1
  else if fge x F.f0_6 then l2
  else if fge x F.f0_4 then l3
  else if fge x F.f0_2 then l4
  else l5.

Definition flevel4 (x : F.float) (l1 l2 l3 l4 : string) : string :=
  if fge x F.f0_8 then l1
  else if fge x F.f0_6 then l2
  else if fge x F.f0_4 then l3
  else l4.

(** The derived values as functions of the four perceptual fields they
    are computed from. *)
Definition dance_score_of (danceability energy valence : F.float) : F.float :=
  F.add (F.add (F.mul danceability F.f0_4) (F.mul energy F.f0_3))
        (F.mul valence F.f0_3).

Definition mood_score_of (valence energy acousticness : F.float) : F.float :=
  F.add (F.add (F.mul valence F.f0_5) (F.mul energy F.f0_3))
        (F.mul (F.sub F.one acousticness) F.f0_2).

Definition derived_of (danceability energy valence acousticness : F.float)
    : list pyval :=
  [VFloat (dance_score_of danceability energy valence);
   VFloat (mood_score_of valence energy acousticness);
   VStr (flevel5 energy "very_high" "high" "medium" "low" "very_low");
   VStr (flevel5 valence
           "very_positive" "positive" "neutral" "negative" "very_negative");
   VStr (flevel4 danceability
           "very_danceable" "danceable" "moderate" "not_danceable")].

Definition derived_fields : list string :=
  ["dance_score"; "mood_score"; "energy_level"; "mood"; "danceability_level"].

Definition derived (feature : dict) : list pyval :=
  map (fun field => Py.get feature field VNone) derived_fields.

Definition perceptual (feature : dict) (field : string) : result F.float :=
  _safe_float (Py.get feature field (VFloat F.zero)).

(** The record [transform_spotify_features] appends for a raw record
    whose numeric fields coerce to the given numbers. *)
Definition enriched_feature (now : string) (feature : dict)
    (d e s a i l v loudness tempo : F.float) (key mode sig dur : Z) : dict :=
  Py.set_str
    (Py.set_str
       (Py.update
          (Py.literal
             [("track_id", Py.get feature "id" (VStr ""));
              ("danceability", VFloat d);
              ("energy", VFloat e);
              ("speechiness", VFloat s);
              ("acousticness", VFloat a);
              ("instrumentalness", VFloat i);
              ("liveness", VFloat l);
              ("valence", VFloat v);
              ("loudness", VFloat loudness);
              ("tempo", VFloat tempo);
              ("key", VInt key);
              ("mode", VInt mode);
              ("time_signature", VInt sig);
              ("duration_ms", VInt dur);
              ("extraction_timestamp",
                 Py.get feature "extraction_timestamp" (VStr ""));
              ("data_source",
                 Py.get feature "data_source" (VStr "spotify_features"));
              ("transformed_at", VStr now)])
          [(VStr "energy_level",
            VStr (flevel5 e "very_high" "high" "medium" "low" "very_low"));
           (VStr "mood",
            VStr (flevel5 v "very_positive" "positive" "neutral" "negative"
                    "very_negative"));
           (VStr "danceability_level",
            VStr (flevel4 d "very_danceable" "danceable" "moderate"
                    "not_danceable"))])
       "dance_score" (VFloat (dance_score_of d e v)))
    "mood_score" (VFloat (mood_score_of v e a)).

Definition int_field (feature : dict) (field : string) (default : Z)
    : result Z :=
  _safe_int (Py.get feature field (VInt default)).




(** ** Video counts *)



(** ** Regional totals *)

Definition view_count_of (video : dict) : pyval :=
  Py.get video "view_count" (VInt 0).

Definition int_view_count (video : dict) : Prop :=
  exists n : Z, view_count_of video = VInt n.

Definition Zsum (l : list Z) : Z := fold_right Z.add 0 l.

Definition views (rd : list (pyval * region_stats)) : list pyval :=
  map (fun entry => total_views (snd entry)) rd.

Definition counted (rd : list (pyval * region_stats)) : Prop :=
  Forall (fun entry => 0 < total_videos (snd entry)) rd.


(** ** Sample records for the examples *)

Definition sample_track : dict :=
  [(VStr "track_id", VStr "t1"); (VStr "name", VStr "Hello");
   (VStr "artist_name", VStr "Adele"); (VStr "popularity", VInt 90);
   (VStr "duration_seconds", VInt 295)].

Definition video_same_title : dict :=
  [(VStr "video_id", VStr "v1"); (VStr "title", VStr "hello")].

Definition video_searched : dict :=
  [(VStr "video_id", VStr "v2");
   (VStr "title", VStr "Adele - Hello (Official Video)");
   (VStr "search_artist", VStr "ADELE"); (VStr "search_track", VStr "hello")].

Definition video_unrelated : dict :=
  [(VStr "video_id", VStr "v3"); (VStr "title", VStr "Something else")].

Definition video_same_title_again : dict :=
  [(VStr "video_id", VStr "v4"); (VStr "title", VStr "Hello")].

Definition sample_videos : list dict :=
  [video_same_title; video_searched; video_unrelated; video_same_title_again].

Definition sample_feature : dict :=
  [(VStr "id", VStr "t1"); (VStr "danceability", VFloat F.f0_5);
   (VStr "energy", VStr "0.8"); (VStr "valence", VNone);
   (VStr "key", VInt 5)].


Definition sample_regional_videos : list dict :=
  [[(VStr "source_region", VStr "BR"); (VStr "view_count", VInt 10)];
   [(VStr "source_region", VStr "US"); (VStr "view_count", VInt 5)];
   [(VStr "source_region", VStr "BR"); (VStr "view_count", VInt 7)]].

Definition sample_unviewed_video : dict :=
  [(VStr "video_id", VStr "v9"); (VStr "view_count", VInt 0);
   (VStr "like_count", VInt 5)].

(* ===================================================================== *)
(** * Facts on rounding: magnitudes below one                              *)
(* ===================================================================== *)

Module FloatFacts.

Lemma digits2_pos_size (p : positive) : digits2_pos p = Pos.size p.
Proof. induction p; simpl; congruence. Qed.

Lemma Zdigits2_nonneg (m : Z) : 0 <= Zdigits2 m.
Proof. destruct m; simpl; lia. Qed.

Lemma Zdigits2_gt (m : Z) : 0 <= m -> m < 2 ^ Zdigits2 m.
Proof.
  destruct m as [|p|p]; unfold Zdigits2; intros H; try lia.
  rewrite digits2_pos_size.
  pose proof (Pos.size_gt p) as Hs.
  pose proof (Pos2Z.inj_pow 2 (Pos.size p)). lia.
Qed.

Lemma Zdigits2_le (m k : Z) : 0 <= m -> 0 <= k -> m < 2 ^ k -> Zdigits2 m <= k.
Proof.
  intros Hm Hk Hlt.
  destruct m as [|p|p]; unfold Zdigits2; try lia.
  rewrite digits2_pos_size.
  destruct (Z_le_gt_dec (Zpos (Pos.size p)) k) as [|Hgt]; [assumption|].
  exfalso.
  pose proof (Pos.size_le p) as Hs.
  pose proof (Pos2Z.inj_pow 2 (Pos.size p)) as Hp.
  assert (H3 : 2 ^ (k + 1) <= 2 ^ Zpos (Pos.size p)).
  { apply Z.pow_le_mono_r; lia. }
  rewrite Z.pow_add_r in H3 by lia. lia.
Qed.

(** [iter_pos] is [Pos.iter]. *)
Lemma iter_pos_iter {A : Type} (f : A -> A) (n : positive) (x : A) :
  iter_pos f n x = Pos.iter f x n.
Proof.
  revert x. induction n as [n IH|n IH|]; intros x; simpl.
  - rewrite !IH. rewrite <- !Pos.iter_swap. reflexivity.
  - rewrite !IH. reflexivity.
  - reflexivity.
Qed.

Lemma shr_1_m (mrs : shr_record) :
  0 <= shr_m mrs -> shr_m (shr_1 mrs) = shr_m mrs / 2.
Proof.
  destruct mrs as [m r s]. simpl. intros Hm.
  destruct m as [|p|p]; try lia.
  - reflexivity.
  - destruct p as [p|p|]; simpl.
    + rewrite Pos2Z.inj_xI. apply Z.div_unique with (r := 1); lia.
    + rewrite Pos2Z.inj_xO. apply Z.div_unique with (r := 0); lia.
    + reflexivity.
Qed.

Lemma shr_iter_m (n : positive) (mrs : shr_record) :
  0 <= shr_m mrs ->
  shr_m (iter_pos shr_1 n mrs) = shr_m mrs / 2 ^ Zpos n.
Proof.
  intros Hm. rewrite iter_pos_iter.
  induction n as [|n IH] using Pos.peano_ind.
  - simpl. rewrite shr_1_m by assumption. reflexivity.
  - rewrite Pos.iter_succ, shr_1_m.
    + rewrite IH, Pos2Z.inj_succ, Z.pow_succ_r by lia.
      rewrite Z.div_div by lia. f_equal. lia.
    + rewrite IH. apply Z.div_pos; lia.
Qed.

Lemma round_nearest_even_bounds (m : Z) (l : location) :
  m <= round_nearest_even m l <= m + 1.
Proof.
  unfold round_nearest_even.
  destruct l as [|[| |]]; try lia. destruct (Z.even m); lia.
Qed.

Lemma shr_m_of_loc (m : Z) (l : location) : shr_m (shr_record_of_loc m l) = m.
Proof. destruct l as [|[| |]]; reflexivity. Qed.

Lemma fexp_eq (e : Z) : fexp 53 1024 e = Z.max (e - 53) (-1074).
Proof. reflexivity. Qed.

Lemma shr_fexp_first (mx ex : Z) (lx : location) :
  0 <= mx -> Zdigits2 mx + ex <= 0 -> ex <= -53 ->
  0 <= shr_m (fst (shr_fexp 53 1024 mx ex lx)) < 2 ^ 53 /\
  -1074 <= snd (shr_fexp 53 1024 mx ex lx) <= -53.
Proof.
  intros Hm Hd He.
  unfold shr_fexp. rewrite fexp_eq.
  pose proof (Zdigits2_gt Hm) as Hgt.
  pose proof (Zdigits2_nonneg mx) as Hnn.
  set (dg := Zdigits2 mx + ex) in *.
  unfold shr.
  destruct (Z.max (dg - 53) (-1074) - ex) as [|n|n] eqn:Hn; simpl fst; simpl snd.
  - rewrite shr_m_of_loc. split; [split; [lia|]|lia].
    eapply Z.lt_le_trans; [exact Hgt|]. apply Z.pow_le_mono_r; lia.
  - rewrite shr_iter_m by (rewrite shr_m_of_loc; lia).
    rewrite shr_m_of_loc.
    split; [|lia].
    split; [apply Z.div_pos; lia|].
    apply Z.div_lt_upper_bound; [lia|].
    rewrite <- Z.pow_add_r by lia.
    eapply Z.lt_le_trans; [exact Hgt|]. apply Z.pow_le_mono_r; lia.
  - rewrite shr_m_of_loc. split; [split; [lia|]|lia].
    eapply Z.lt_le_trans; [exact Hgt|]. apply Z.pow_le_mono_r; lia.
Qed.

Lemma shr_fexp_second (m e : Z) :
  0 <= m <= 2 ^ 53 -> -1074 <= e <= -53 ->
  0 <= shr_m (fst (shr_fexp 53 1024 m e loc_Exact)) /\
  (shr_m (fst (shr_fexp 53 1024 m e loc_Exact)) = 0 \/
   snd (shr_fexp 53 1024 m e loc_Exact) <= -53 \/
   (snd (shr_fexp 53 1024 m e loc_Exact) = -52 /\
    shr_m (fst (shr_fexp 53 1024 m e loc_Exact)) = Zpos F.two52)).
Proof.
  intros Hm He.
  destruct (Z.eq_dec m (2 ^ 53)) as [->|Hne].
  - vm_compute Zdigits2. unfold shr_fexp. vm_compute (Zdigits2 (2 ^ 53)).
    rewrite fexp_eq.
    replace (Z.max (54 + e - 53) (-1074) - e) with 1 by lia.
    simpl. unfold F.two52. lia.
  - assert (Hlt : m < 2 ^ 53) by lia.
    assert (Hd : Zdigits2 m <= 53) by (apply Zdigits2_le; lia).
    unfold shr_fexp. rewrite fexp_eq. unfold shr.
    destruct (Z.max (Zdigits2 m + e - 53) (-1074) - e) as [|n|n] eqn:Hn;
      simpl; try lia.
Qed.

Lemma round_aux_small (s : bool) (mx ex : Z) (lx : location) :
  0 <= mx -> Zdigits2 mx + ex <= 0 -> ex <= -53 ->
  F.small s (binary_round_aux 53 1024 s mx ex lx).
Proof.
  intros Hm Hd He.
  unfold binary_round_aux.
  pose proof (shr_fexp_first lx Hm Hd He) as [Hm1 He1].
  destruct (shr_fexp 53 1024 mx ex lx) as [mrs' e'].
  simpl fst in *; simpl snd in *.
  pose proof (round_nearest_even_bounds (shr_m mrs') (loc_of_shr_record mrs')) as Hr.
  set (m2 := round_nearest_even (shr_m mrs') (loc_of_shr_record mrs')) in *.
  assert (Hm2 : 0 <= m2 <= 2 ^ 53) by lia.
  pose proof (shr_fexp_second Hm2 He1) as [Hp Hq].
  destruct (shr_fexp 53 1024 m2 e' loc_Exact) as [mrs'' e''].
  simpl fst in *; simpl snd in *.
  destruct (shr_m mrs'') as [|p|p] eqn:Hs; try lia.
  - left; reflexivity.
  - right. destruct Hq as [Hq|[Hq|[Hq1 Hq2]]]; try discriminate.
    + replace (e'' <=? 1024 - 53) with true by (symmetry; apply Z.leb_le; lia).
      exists p, e''. split; [reflexivity|lia].
    + replace (e'' <=? 1024 - 53) with true by (symmetry; apply Z.leb_le; lia).
      exists p, e''. split; [reflexivity|]. right. split; [lia|congruence].
Qed.

Lemma pos_iter_xO (m d : positive) :
  Zpos (Pos.iter xO m d) = Zpos m * 2 ^ Zpos d.
Proof.
  induction d as [|d IH] using Pos.peano_ind.
  - simpl. lia.
  - rewrite Pos.iter_succ, Pos2Z.inj_xO, IH, Pos2Z.inj_succ, Z.pow_succ_r by lia.
    lia.
Qed.

(** [shl_align] keeps the value and lowers the exponent to [e'] at most. *)
Lemma shl_align_spec (m : positive) (e e' : Z) :
  snd (shl_align m e e') = Z.min e e' /\
  Zpos (fst (shl_align m e e')) = Zpos m * 2 ^ (e - Z.min e e').
Proof.
  unfold shl_align.
  destruct (e' - e) as [|d|d] eqn:Hd; simpl fst; simpl snd.
  - replace (Z.min e e') with e by lia. rewrite Z.sub_diag. simpl. lia.
  - replace (Z.min e e') with e by lia. rewrite Z.sub_diag. simpl. lia.
  - replace (Z.min e e') with e' by lia. split; [reflexivity|].
    rewrite pos_iter_xO. f_equal. f_equal. lia.
Qed.

(** Rounding a positive integer times a power of two, below F.one. *)
Lemma binary_round_small (s : bool) (p : positive) (e : Z) :
  Zpos p < 2 ^ (- e) -> e <= 0 ->
  F.small s (binary_round 53 1024 s p e).
Proof.
  intros Hlt He.
  unfold binary_round.
  change (Zpos (digits2_pos p)) with (Zdigits2 (Zpos p)).
  assert (Hd : Zdigits2 (Zpos p) <= - e) by (apply Zdigits2_le; lia).
  set (fe := fexp 53 1024 (Zdigits2 (Zpos p) + e)).
  assert (Hfe : fe <= -53) by (unfold fe; rewrite fexp_eq; lia).
  destruct (shl_align_spec p e fe) as [He' Hm'].
  destruct (shl_align p e fe) as [mz ez]. simpl fst in *; simpl snd in *.
  apply round_aux_small; try lia.
  assert (Hz : Zpos mz < 2 ^ (- ez)).
  { rewrite Hm'. replace (- ez) with (- e + (e - Z.min e fe)) by lia.
    rewrite Z.pow_add_r by lia.
    apply Z.mul_lt_mono_pos_r; [apply Z.pow_pos_nonneg; lia|assumption]. }
  assert (Zdigits2 (Zpos mz) <= - ez) by (apply Zdigits2_le; lia).
  lia.
Qed.

(** The rounded quotient of [a / b] for [0 <= a < b]. *)
Lemma div_small (a b : Z) : 0 <= a < b -> F.small false (F.div_Z a b).
Proof.
  intros [Ha Hab].
  destruct b as [|pb|pb]; try lia.
  destruct a as [|pa|pa]; try lia.
  - left. reflexivity.
  - unfold F.div_Z, F.div, F.raw_of_Z, SFdiv, SFdiv_core_binary.
    change F.prec with 53. change F.emax with 1024.
    assert (Hd12 : Zdigits2 (Zpos pa) <= Zdigits2 (Zpos pb)).
    { apply Zdigits2_le; [lia|apply Zdigits2_nonneg|].
      pose proof (@Zdigits2_gt (Zpos pb)). lia. }
    rewrite fexp_eq.
    set (e' := Z.min (Z.max (Zdigits2 (Zpos pa) + 0 - (Zdigits2 (Zpos pb) + 0) - 53) (-1074)) (0 - 0)).
    assert (He' : e' <= -53) by (unfold e'; lia).
    destruct (0 - 0 - e') as [|sp|sp] eqn:Hs; try lia.
    rewrite Z.shiftl_mul_pow2 by lia.
    pose proof (Z_div_mod (Zpos pa * 2 ^ Zpos sp) (Zpos pb) ltac:(lia)) as Hdm.
    destruct (Z.div_eucl (Zpos pa * 2 ^ Zpos sp) (Zpos pb)) as [q r].
    destruct Hdm as [Heq Hr].
    assert (Hpow : 0 < 2 ^ Zpos sp) by (apply Z.pow_pos_nonneg; lia).
    assert (Hq0 : 0 <= q) by nia.
    assert (Hq : q < 2 ^ Zpos sp) by nia.
    simpl xorb.
    apply round_aux_small; try lia.
    assert (Zdigits2 q <= Zpos sp) by (apply Zdigits2_le; lia).
    lia.
Qed.

(** A result of sign [true] is never above zero. *)
Lemma round_aux_neg_not_gt (mx ex : Z) (lx : location) :
  SFcompare (binary_round_aux 53 1024 true mx ex lx) (S754_zero false) <> Some Gt.
Proof.
  unfold binary_round_aux.
  destruct (shr_fexp 53 1024 mx ex lx) as [mrs' e'].
  destruct (shr_fexp 53 1024 _ e' loc_Exact) as [mrs'' e''].
  destruct (shr_m mrs''); [|destruct (e'' <=? 1024 - 53)|]; simpl; discriminate.
Qed.

Lemma small_le_one (r : spec_float) :
  F.small false r -> SFleb r F.one = true /\ SFleb (S754_zero false) r = true.
Proof.
  intros [->|(m & e & -> & [He|[-> ->]])].
  - split; reflexivity.
  - unfold SFleb, SFcompare, F.one. split; [|reflexivity].
    destruct (Z.compare_spec e (-52)); try lia; reflexivity.
  - split; reflexivity.
Qed.

(** [1.0 - q] for a quotient [q] in [[0, 1]]: above zero only if at most
    F.one. *)
Lemma one_minus_small (q : spec_float) :
  F.small false q ->
  SFcompare (SFsub 53 1024 F.one q) (S754_zero false) = Some Gt ->
  SFleb (SFsub 53 1024 F.one q) F.one = true /\
  SFleb (S754_zero false) (SFsub 53 1024 F.one q) = true.
Proof.
  intros [->|(m & e & -> & He)].
  - intros _. split; reflexivity.
  - assert (He52 : e <= -52) by lia.
    unfold SFsub, F.one.
    replace (Z.min (-52) e) with e by lia.
    destruct (shl_align_spec F.two52 (-52) e) as [_ H1].
    destruct (shl_align_spec m e e) as [_ H2].
    replace (Z.min (-52) e) with e in H1 by lia.
    replace (Z.min e e) with e in H2 by lia.
    rewrite Z.sub_diag in H2. simpl (2 ^ 0) in H2. rewrite Z.mul_1_r in H2.
    unfold cond_Zopp. rewrite H1, H2.
    assert (Hone : Zpos F.two52 * 2 ^ (-52 - e) = 2 ^ (- e)).
    { change (Zpos F.two52) with (2 ^ 52). rewrite <- Z.pow_add_r by lia.
      f_equal. lia. }
    rewrite Hone.
    unfold binary_normalize.
    destruct (2 ^ (- e) - Zpos m) as [|p|p] eqn:Hd.
    + intros Hc. discriminate Hc.
    + intros _. apply small_le_one.
      apply binary_round_small; [|lia].
      lia.
    + intros Hc. exfalso. revert Hc. unfold binary_round.
      destruct (shl_align p e _) as [mz ez]. apply round_aux_neg_not_gt.
Qed.

Lemma Zdigits2_lb (m : Z) : 0 < m -> 2 ^ (Zdigits2 m - 1) <= m.
Proof.
  destruct m as [|p|p]; unfold Zdigits2; intros H; try lia.
  rewrite digits2_pos_size.
  pose proof (Pos.size_le p) as Hs.
  pose proof (Pos2Z.inj_pow 2 (Pos.size p)) as Hp.
  assert (H2 : 2 ^ Zpos (Pos.size p) = 2 * 2 ^ (Zpos (Pos.size p) - 1)).
  { rewrite <- Z.pow_succ_r by lia. f_equal. lia. }
  lia.
Qed.

Lemma Zdigits2_unique (m d : Z) :
  0 < m -> 2 ^ (d - 1) <= m < 2 ^ d -> Zdigits2 m = d.
Proof.
  intros Hm [Hlo Hhi].
  assert (Hd : 0 < d).
  { destruct (Z_lt_le_dec 0 d); [assumption|].
    exfalso. destruct (Z.eq_dec d 0) as [->|Hd0].
    - simpl in Hhi. lia.
    - rewrite Z.pow_neg_r in Hhi by lia. lia. }
  pose proof (Zdigits2_lb Hm) as Hlb.
  pose proof (@Zdigits2_gt m ltac:(lia)) as Hub.
  pose proof (Zdigits2_nonneg m).
  destruct (Z.lt_trichotomy (Zdigits2 m) d) as [Hlt|[Heq|Hgt]]; [|assumption|].
  - assert (2 ^ Zdigits2 m <= 2 ^ (d - 1)) by (apply Z.pow_le_mono_r; lia). lia.
  - assert (2 ^ d <= 2 ^ (Zdigits2 m - 1)) by (apply Z.pow_le_mono_r; lia). lia.
Qed.

(** Rounding what is at least the smallest subnormal does not give zero. *)
Lemma round_aux_nonzero (s : bool) (mx ex : Z) (lx : location) :
  0 < mx -> ex <= fexp 53 1024 (Zdigits2 mx + ex) ->
  -1073 <= Zdigits2 mx + ex ->
  F.is_zero (binary_round_aux 53 1024 s mx ex lx) = false /\
  F.is_nan (binary_round_aux 53 1024 s mx ex lx) = false.
Proof.
  intros Hm He Hd.
  pose proof (Zdigits2_lb Hm) as Hlb.
  pose proof (@Zdigits2_gt mx ltac:(lia)) as Hub.
  pose proof (Zdigits2_nonneg mx) as Hnn.
  unfold binary_round_aux.
  assert (H1 : 1 <= shr_m (fst (shr_fexp 53 1024 mx ex lx)) < 2 ^ 53 /\
               -1074 <= snd (shr_fexp 53 1024 mx ex lx)).
  { unfold shr_fexp, shr. rewrite fexp_eq in *.
    set (dg := Zdigits2 mx + ex) in *.
    destruct (Z.max (dg - 53) (-1074) - ex) as [|n|n] eqn:Hn; simpl fst; simpl snd;
      rewrite ?shr_m_of_loc; try lia.
    - split; [split; [lia|]|lia].
      eapply Z.lt_le_trans; [exact Hub|]. apply Z.pow_le_mono_r; lia.
    - rewrite shr_iter_m by (rewrite shr_m_of_loc; lia).
      rewrite shr_m_of_loc. split; [|lia]. split.
      + apply Z.div_le_lower_bound; [apply Z.pow_pos_nonneg; lia|].
        rewrite Z.mul_1_r. eapply Z.le_trans; [|exact Hlb].
        apply Z.pow_le_mono_r; lia.
      + apply Z.div_lt_upper_bound; [apply Z.pow_pos_nonneg; lia|].
        rewrite <- Z.pow_add_r by lia.
        eapply Z.lt_le_trans; [exact Hub|]. apply Z.pow_le_mono_r; lia. }
  destruct (shr_fexp 53 1024 mx ex lx) as [mrs' e']. simpl fst in *; simpl snd in *.
  pose proof (round_nearest_even_bounds (shr_m mrs') (loc_of_shr_record mrs')) as Hr.
  set (m2 := round_nearest_even (shr_m mrs') (loc_of_shr_record mrs')) in *.
  assert (H2 : 1 <= shr_m (fst (shr_fexp 53 1024 m2 e' loc_Exact))).
  { destruct (Z.eq_dec m2 (2 ^ 53)) as [->|Hne].
    - unfold shr_fexp. vm_compute (Zdigits2 (2 ^ 53)). rewrite fexp_eq.
      replace (Z.max (54 + e' - 53) (-1074) - e') with 1 by lia.
      simpl. lia.
    - assert (Hd2 : Zdigits2 m2 <= 53) by (apply Zdigits2_le; lia).
      unfold shr_fexp, shr. rewrite fexp_eq.
      destruct (Z.max (Zdigits2 m2 + e' - 53) (-1074) - e') as [|n|n] eqn:Hn;
        simpl; lia. }
  destruct (shr_fexp 53 1024 m2 e' loc_Exact) as [mrs'' e'']. simpl fst in *.
  destruct (shr_m mrs'') as [|p|p]; try lia.
  destruct (e'' <=? 1024 - 53); split; reflexivity.
Qed.

Lemma Zdigits2_shift (p : positive) (k : Z) :
  0 <= k -> Zdigits2 (Zpos p * 2 ^ k) = Zdigits2 (Zpos p) + k.
Proof.
  intros Hk.
  pose proof (@Zdigits2_lb (Zpos p) ltac:(lia)) as Hlb.
  pose proof (@Zdigits2_gt (Zpos p) ltac:(lia)) as Hub.
  pose proof (Zdigits2_nonneg (Zpos p)) as Hnn.
  assert (Hpos : 0 < Zdigits2 (Zpos p)) by (simpl; lia).
  assert (H2k : 0 < 2 ^ k) by (apply Z.pow_pos_nonneg; lia).
  apply Zdigits2_unique; [lia|]. split.
  - replace (Zdigits2 (Zpos p) + k - 1) with (Zdigits2 (Zpos p) - 1 + k) by lia.
    rewrite Z.pow_add_r by lia. nia.
  - rewrite Z.pow_add_r by lia. nia.
Qed.

(** A non-zero integer does not convert to a zero or a NaN. *)
Lemma of_Z_nonzero (z : Z) :
  z <> 0 -> F.is_zero (F.of_Z z) = false /\ F.is_nan (F.of_Z z) = false.
Proof.
  intros Hz.
  assert (Hp : forall s p, F.is_zero (binary_round 53 1024 s p 0) = false /\
                           F.is_nan (binary_round 53 1024 s p 0) = false).
  { intros s p. unfold binary_round.
    change (Zpos (digits2_pos p)) with (Zdigits2 (Zpos p)).
    set (fe := fexp 53 1024 (Zdigits2 (Zpos p) + 0)).
    destruct (shl_align_spec p 0 fe) as [He' Hm'].
    destruct (shl_align p 0 fe) as [mz ez]. simpl fst in *; simpl snd in *.
    assert (Hez : ez <= 0) by lia.
    assert (Hdg : Zdigits2 (Zpos mz) + ez = Zdigits2 (Zpos p)).
    { rewrite Hm', Zdigits2_shift by lia. lia. }
    assert (Hpos : 0 < Zdigits2 (Zpos p)) by (simpl; lia).
    apply round_aux_nonzero; try lia.
    rewrite Hdg. unfold fe in He'. rewrite Z.add_0_r in He'. lia. }
  destruct z as [|p|p]; [contradiction| |]; apply Hp.
Qed.

End FloatFacts.

(* ===================================================================== *)
(** * Facts on the order of floats                                         *)
(* ===================================================================== *)

Module FloatOrder.

Lemma compare_rank (x y : F.float) :
  F.is_nan x = false -> F.is_nan y = false ->
  F.compare x y = Some (lex3 (float_rank x) (float_rank y)).
Proof.
  destruct x as [sx|sx| |sx mx ex], y as [sy|sy| |sy my ey];
    try discriminate; intros _ _;
    try (destruct sx; reflexivity); try (destruct sy; reflexivity);
    try (destruct sx, sy; reflexivity).
  unfold F.compare, SFcompare, lex3, float_rank.
  destruct sx, sy; cbn [fst snd]; try reflexivity.
  rewrite Z.compare_opp.
  destruct (Z.compare_spec ey ex), (Z.compare_spec ex ey);
    try lia; reflexivity.
Qed.


Lemma lex3_antisym (a b : Z * Z * Z) : lex3 b a = CompOpp (lex3 a b).
Proof.
  destruct a as [[a1 a2] a3], b as [[b1 b2] b3]. cbn [fst snd lex3].
  unfold lex3; cbn [fst snd].
  destruct (Z.compare_spec a1 b1), (Z.compare_spec b1 a1); try lia; try reflexivity.
  destruct (Z.compare_spec a2 b2), (Z.compare_spec b2 a2); try lia; try reflexivity.
  destruct (Z.compare_spec a3 b3), (Z.compare_spec b3 a3); try lia; reflexivity.
Qed.

Lemma lex3_spec (a b : Z * Z * Z) :
  let '(a1, a2, a3) := a in
  let '(b1, b2, b3) := b in
  match lex3 a b with
  | Lt => a1 < b1 \/ (a1 = b1 /\ (a2 < b2 \/ (a2 = b2 /\ a3 < b3)))
  | Eq => a1 = b1 /\ a2 = b2 /\ a3 = b3
  | Gt => b1 < a1 \/ (a1 = b1 /\ (b2 < a2 \/ (a2 = b2 /\ b3 < a3)))
  end.
Proof.
  destruct a as [[a1 a2] a3], b as [[b1 b2] b3]. unfold lex3; cbn [fst snd].
  destruct (Z.compare_spec a1 b1); try lia.
  destruct (Z.compare_spec a2 b2); try lia.
  destruct (Z.compare_spec a3 b3); lia.
Qed.

(** The order on floats, as the sort sees it. *)
Lemma ltb_false_leb (x y : F.float) :
  F.is_nan x = false -> F.is_nan y = false ->
  F.ltb x y = false -> F.leb y x = true.
Proof.
  intros Hx Hy. unfold F.ltb, F.leb, SFltb, SFleb.
  fold (F.compare x y). fold (F.compare y x).
  rewrite (compare_rank _ _ Hx Hy), (compare_rank _ _ Hy Hx).
  rewrite (lex3_antisym (float_rank x) (float_rank y)).
  destruct (lex3 (float_rank x) (float_rank y)); simpl; congruence.
Qed.

Lemma ltb_leb (x y : F.float) : F.ltb x y = true -> F.leb x y = true.
Proof.
  unfold F.ltb, F.leb, SFltb, SFleb. destruct (SFcompare x y) as [[| |]|]; congruence.
Qed.

Lemma ltb_not_nan (x y : F.float) :
  F.ltb x y = true -> F.is_nan x = false /\ F.is_nan y = false.
Proof.
  unfold F.ltb, SFltb. destruct x, y; simpl; try discriminate; auto.
Qed.

Lemma ltb_leb_false (x y : F.float) : F.ltb x y = true -> F.leb y x = false.
Proof.
  intros H. destruct (ltb_not_nan _ _ H) as [Hx Hy]. revert H.
  unfold F.ltb, F.leb, SFltb, SFleb.
  fold (F.compare x y). fold (F.compare y x).
  rewrite (compare_rank _ _ Hx Hy), (compare_rank _ _ Hy Hx).
  rewrite (lex3_antisym (float_rank x) (float_rank y)).
  destruct (lex3 (float_rank x) (float_rank y)); simpl; congruence.
Qed.

Lemma leb_trans (x y z : F.float) :
  F.leb x y = true -> F.leb y z = true -> F.leb x z = true.
Proof.
  intros Hxy Hyz.
  assert (Hx : F.is_nan x = false) by (destruct x, y; try discriminate; reflexivity).
  assert (Hy : F.is_nan y = false) by (destruct x, y; try discriminate; reflexivity).
  assert (Hz : F.is_nan z = false) by (destruct y, z; try discriminate; reflexivity).
  revert Hxy Hyz. unfold F.leb, SFleb.
  fold (F.compare x y). fold (F.compare y z). fold (F.compare x z).
  rewrite (compare_rank _ _ Hx Hy), (compare_rank _ _ Hy Hz), (compare_rank _ _ Hx Hz).
  pose proof (lex3_spec (float_rank x) (float_rank y)) as H1.
  pose proof (lex3_spec (float_rank y) (float_rank z)) as H2.
  pose proof (lex3_spec (float_rank x) (float_rank z)) as H3.
  destruct (float_rank x) as [[a1 a2] a3], (float_rank y) as [[b1 b2] b3], (float_rank z) as [[c1 c2] c3].
  destruct (lex3 (a1, a2, a3) (b1, b2, b3)); try discriminate;
  destruct (lex3 (b1, b2, b3) (c1, c2, c3)); try discriminate;
  destruct (lex3 (a1, a2, a3) (c1, c2, c3)); try reflexivity; intros _ _; exfalso; lia.
Qed.

(** Equal keys are interchangeable under [<]. *)
Lemma eqb_ltb_compat (x y s : F.float) :
  F.eqb x s = true -> F.ltb x y = true -> F.eqb y s = false.
Proof.
  intros Hxs Hxy.
  destruct (ltb_not_nan _ _ Hxy) as [Hx Hy].
  assert (Hs : F.is_nan s = false) by (destruct x, s; try discriminate; reflexivity).
  revert Hxs Hxy. unfold F.eqb, F.ltb, SFeqb, SFltb.
  fold (F.compare x s). fold (F.compare x y). fold (F.compare y s).
  rewrite (compare_rank _ _ Hx Hs), (compare_rank _ _ Hx Hy), (compare_rank _ _ Hy Hs).
  pose proof (lex3_spec (float_rank x) (float_rank s)) as H1.
  pose proof (lex3_spec (float_rank x) (float_rank y)) as H2.
  pose proof (lex3_spec (float_rank y) (float_rank s)) as H3.
  destruct (float_rank x) as [[a1 a2] a3], (float_rank y) as [[b1 b2] b3], (float_rank s) as [[c1 c2] c3].
  destruct (lex3 (a1, a2, a3) (c1, c2, c3)); try discriminate;
  destruct (lex3 (a1, a2, a3) (b1, b2, b3)); try discriminate;
  destruct (lex3 (b1, b2, b3) (c1, c2, c3)); try reflexivity; intros _ _; exfalso; lia.
Qed.

End FloatOrder.

(* ===================================================================== *)
(** * Facts on the stable sort                                             *)
(* ===================================================================== *)

Module SortFacts.

Section StableSort.
Variables (A K : Type) (lt le : K -> K -> bool) (ok : K -> Prop)
          (key : A -> K).
Hypothesis total : forall x y, ok x -> ok y -> lt x y = false -> le y x = true.
Hypothesis lt_le : forall x y, lt x y = true -> le x y = true.
Hypothesis le_trans :
  forall x y z, le x y = true -> le y z = true -> le x z = true.

Lemma insert_desc_perm (x : A) (l : list A) :
  Permutation (insert_desc lt key x l) (x :: l).
Proof.
  induction l as [|y l IH]; simpl.
  - apply Permutation_refl.
  - destruct (lt (key x) (key y)).
    + eapply perm_trans; [apply perm_skip, IH|apply perm_swap].
    + apply Permutation_refl.
Qed.

Lemma sort_reverse_perm (l : list A) : Permutation (sort_reverse lt key l) l.
Proof.
  induction l as [|x l IH]; simpl.
  - constructor.
  - eapply perm_trans; [apply insert_desc_perm|apply perm_skip, IH].
Qed.

Lemma insert_desc_sorted (x : A) (l : list A) :
  ok (key x) -> Forall (fun a => ok (key a)) l ->
  StronglySorted (fun a b => le (key b) (key a) = true) l ->
  StronglySorted (fun a b => le (key b) (key a) = true)
    (insert_desc lt key x l).
Proof.
  intros Hx Hl Hs. induction Hs as [|y l Hs IH Hy]; simpl.
  - constructor; constructor.
  - inversion Hl as [|? ? Hoy Hol]; subst.
    destruct (lt (key x) (key y)) eqn:Hlt.
    + constructor; [apply IH; assumption|].
      eapply Permutation_Forall; [apply Permutation_sym, insert_desc_perm|].
      constructor; [apply lt_le; assumption|assumption].
    + assert (Hxy : le (key y) (key x) = true) by (apply total; assumption).
      constructor; [constructor; assumption|].
      constructor; [assumption|].
      eapply Forall_impl; [|exact Hy].
      intros a Ha. cbv beta in *. eapply le_trans; eassumption.
Qed.

Lemma sort_reverse_sorted (l : list A) :
  Forall (fun a => ok (key a)) l ->
  StronglySorted (fun a b => le (key b) (key a) = true)
    (sort_reverse lt key l).
Proof.
  induction 1 as [|x l Hx Hl IH]; simpl.
  - constructor.
  - apply insert_desc_sorted; [assumption| |assumption].
    eapply Permutation_Forall; [apply Permutation_sym, sort_reverse_perm|].
    assumption.
Qed.

(** Stability: the elements of one class of equal keys keep their
    order. *)
Variable same : K -> bool.
Hypothesis same_lt : forall x y, same x = true -> lt x y = true -> same y = false.

Lemma insert_desc_stable (x : A) (l : list A) :
  filter (fun a => same (key a)) (insert_desc lt key x l)
  = filter (fun a => same (key a)) (x :: l).
Proof.
  induction l as [|y l IH]; [reflexivity|].
  simpl insert_desc. destruct (lt (key x) (key y)) eqn:Hlt; [|reflexivity].
  simpl filter in *. rewrite IH.
  destruct (same (key x)) eqn:Hx; [|reflexivity].
  rewrite (same_lt Hx Hlt). reflexivity.
Qed.

Lemma sort_reverse_stable (l : list A) :
  filter (fun a => same (key a)) (sort_reverse lt key l)
  = filter (fun a => same (key a)) l.
Proof.
  induction l as [|x l IH]; [reflexivity|].
  simpl sort_reverse. rewrite insert_desc_stable. simpl. rewrite IH.
  reflexivity.
Qed.
End StableSort.

Lemma Forall_firstn' (A : Type) (P : A -> Prop) (n : nat) (l : list A) :
  Forall P l -> Forall P (firstn n l).
Proof.
  intros H. revert n. induction H as [|x l Hx Hl IH]; intros [|n]; simpl;
    constructor; auto.
Qed.

Lemma firstn_sorted (A : Type) (R : A -> A -> Prop) (n : nat) (l : list A) :
  StronglySorted R l -> StronglySorted R (firstn n l).
Proof.
  intros Hs. revert n. induction Hs as [|x l Hs IH Hx]; intros [|n]; simpl;
    constructor.
  - apply IH.
  - apply Forall_firstn'. assumption.
Qed.

(** A filter of a prefix is a prefix of the filter. *)
Lemma filter_firstn_prefix (A : Type) (p : A -> bool) (n : nat) (l : list A) :
  exists rest, filter p l = (filter p (firstn n l) ++ rest)%list.
Proof.
  exists (filter p (skipn n l)).
  rewrite <- filter_app, firstn_skipn. reflexivity.
Qed.

End SortFacts.

(* ===================================================================== *)
(** * Facts on dictionaries                                                *)
(* ===================================================================== *)

Module DictFacts.

Lemma key_eqb_str (k : pyval) (s : string) :
  Py.key_eqb k (VStr s) = match k with VStr t => String.eqb t s | _ => false end.
Proof. destruct k; reflexivity. Qed.

Lemma key_eqb_str_inj (k : pyval) (s t : string) :
  Py.key_eqb k (VStr s) = true -> Py.key_eqb k (VStr t) = true -> s = t.
Proof.
  rewrite !key_eqb_str. destruct k; try discriminate.
  intros H1 H2. apply String.eqb_eq in H1, H2. congruence.
Qed.

Section Lookup.
Variable V : Type.

Lemma lookup_set_eq (d : list (pyval * V)) (k : string) (v : V) :
  Py.lookup (Py.set d (VStr k) v) (VStr k) = Some v.
Proof.
  induction d as [|[k0 v0] d IH]; simpl.
  - rewrite String.eqb_refl. reflexivity.
  - destruct (Py.key_eqb k0 (VStr k)) eqn:E; simpl; rewrite E;
      [reflexivity|exact IH].
Qed.

Lemma lookup_set_neq (d : list (pyval * V)) (k k' : string) (v : V) :
  k <> k' -> Py.lookup (Py.set d (VStr k) v) (VStr k') = Py.lookup d (VStr k').
Proof.
  intros Hne. induction d as [|[k0 v0] d IH]; simpl.
  - destruct (String.eqb_spec k k'); [contradiction|reflexivity].
  - destruct (Py.key_eqb k0 (VStr k)) eqn:E1; simpl.
    + destruct (Py.key_eqb k0 (VStr k')) eqn:E2; [|reflexivity].
      elim Hne. eapply key_eqb_str_inj; eassumption.
    + destruct (Py.key_eqb k0 (VStr k')); [reflexivity|exact IH].
Qed.
End Lookup.

End DictFacts.

(** Lookups in a dictionary built by assignments to string keys. *)
Ltac lookups :=
  unfold Py.get, Py.item, Py.literal, Py.update;
  cbn [fold_left fst snd];
  unfold Py.set_str;
  repeat (rewrite DictFacts.lookup_set_eq
          || rewrite DictFacts.lookup_set_neq by discriminate);
  cbv beta iota.

Ltac lookups_in H :=
  unfold Py.get, Py.item, Py.literal, Py.update in H;
  cbn [fold_left fst snd] in H;
  unfold Py.set_str in H;
  repeat (rewrite DictFacts.lookup_set_eq in H
          || rewrite DictFacts.lookup_set_neq in H by discriminate);
  cbv beta iota in H.

(** Case analysis on the first computation of a sequence that succeeds. *)
Ltac inv_bind_at c H :=
  lazymatch c with
  | bind ?c' _ => inv_bind_at c' H
  | _ =>
      let E := fresh "E" in
      destruct c eqn:E; cbn [bind] in H; [|discriminate H]
  end.

Ltac inv_bind H :=
  match type of H with
  | bind ?c _ = Ok _ => inv_bind_at c H
  end.

(* ===================================================================== *)
(** * Facts on the record transformations                                  *)
(* ===================================================================== *)

Module TransformFacts.

Lemma ge_float (x t : F.float) : Py.ge (VFloat x) (VFloat t) = Ok (fge x t).
Proof. reflexivity. Qed.

Lemma level5_float (x : F.float) (l1 l2 l3 l4 l5 : string) :
  level5 (VFloat x) l1 l2 l3 l4 l5 = Ok (flevel5 x l1 l2 l3 l4 l5).
Proof.
  unfold level5, flevel5. rewrite !ge_float. cbn [bind].
  destruct (fge x F.f0_8), (fge x F.f0_6), (fge x F.f0_4), (fge x F.f0_2);
    reflexivity.
Qed.

Lemma level4_float (x : F.float) (l1 l2 l3 l4 : string) :
  level4 (VFloat x) l1 l2 l3 l4 = Ok (flevel4 x l1 l2 l3 l4).
Proof.
  unfold level4, flevel4. rewrite !ge_float. cbn [bind].
  destruct (fge x F.f0_8), (fge x F.f0_6), (fge x F.f0_4); reflexivity.
Qed.

Lemma transform_feature_ok (now : string) (feature : dict)
    (d e s a i l v loudness tempo : F.float) (key mode sig dur : Z) :
  perceptual feature "danceability" = Ok d ->
  perceptual feature "energy" = Ok e ->
  perceptual feature "speechiness" = Ok s ->
  perceptual feature "acousticness" = Ok a ->
  perceptual feature "instrumentalness" = Ok i ->
  perceptual feature "liveness" = Ok l ->
  perceptual feature "valence" = Ok v ->
  perceptual feature "loudness" = Ok loudness ->
  perceptual feature "tempo" = Ok tempo ->
  int_field feature "key" (-1) = Ok key ->
  int_field feature "mode" (-1) = Ok mode ->
  int_field feature "time_signature" 4 = Ok sig ->
  int_field feature "duration_ms" 0 = Ok dur ->
  transform_feature now feature
  = Ok (enriched_feature now feature d e s a i l v loudness tempo
          key mode sig dur).
Proof.
  unfold perceptual, int_field, transform_feature.
  intros -> -> -> -> -> -> -> -> -> -> -> -> ->. cbn [bind]. cbv zeta.
  unfold _categorize_audio_features.
  lookups.
  rewrite !level5_float, level4_float. cbn [bind].
  lookups.
  reflexivity.
Qed.

Lemma transform_feature_inv (now : string) (feature out : dict) :
  transform_feature now feature = Ok out ->
  exists (d e s a i l v loudness tempo : F.float) (key mode sig dur : Z),
    perceptual feature "danceability" = Ok d /\
    perceptual feature "energy" = Ok e /\
    perceptual feature "speechiness" = Ok s /\
    perceptual feature "acousticness" = Ok a /\
    perceptual feature "instrumentalness" = Ok i /\
    perceptual feature "liveness" = Ok l /\
    perceptual feature "valence" = Ok v /\
    out = enriched_feature now feature d e s a i l v loudness tempo
            key mode sig dur.
Proof.
  intros H. pose proof H as H'.
  unfold transform_feature in H'. do 13 inv_bind H'. clear H'.
  rewrite (transform_feature_ok now feature E E0 E1 E2 E3 E4 E5 E6 E7
             E8 E9 E10 E11) in H.
  injection H as <-.
  do 13 eexists. repeat split; eassumption.
Qed.



Lemma engagement_metrics_shape (video m : dict) :
  _calculate_engagement_metrics video = Ok m ->
  exists a b c d : pyval,
    m = [(VStr "like_rate", a); (VStr "comment_rate", b);
         (VStr "engagement_rate", c); (VStr "engagement_score", d)].
Proof.
  unfold _calculate_engagement_metrics. intros H.
  inv_bind H. destruct a.
  - do 4 inv_bind H. lookups_in H. cbn [bind] in H. do 2 inv_bind H.
    injection H as <-. do 4 eexists. reflexivity.
  - cbn [bind] in H. lookups_in H. cbn [bind] in H. do 2 inv_bind H.
    injection H as <-. do 4 eexists. reflexivity.
Qed.

Section Videos.
Context {env : Env}.

Lemma transform_video_inv (now : string) (video out : dict) :
  transform_video now video = Ok out ->
  exists view like dislike comment favorite : Z,
    _safe_int (Py.get video "view_count" (VInt 0)) = Ok view /\
    _safe_int (Py.get video "like_count" (VInt 0)) = Ok like /\
    _safe_int (Py.get video "dislike_count" (VInt 0)) = Ok dislike /\
    _safe_int (Py.get video "comment_count" (VInt 0)) = Ok comment /\
    _safe_int (Py.get video "favorite_count" (VInt 0)) = Ok favorite /\
    Py.lookup out (VStr "view_count") = Some (VInt view) /\
    Py.lookup out (VStr "like_count") = Some (VInt like) /\
    Py.lookup out (VStr "dislike_count") = Some (VInt dislike) /\
    Py.lookup out (VStr "comment_count") = Some (VInt comment) /\
    Py.lookup out (VStr "favorite_count") = Some (VInt favorite) /\
    Py.lookup out (VStr "source_region")
      = Some (Py.get video "source_region" (VStr "")).
Proof.
  unfold transform_video. intros H.
  do 11 inv_bind H. cbv zeta in H.
  inv_bind H.
  destruct (engagement_metrics_shape _ E10) as (ma & mb & mc & md & ->).
  do 2 inv_bind H.
  lookups_in H. cbn [bind] in H.
  do 3 inv_bind H.
  injection H as <-.
  do 5 eexists. repeat (split; [eassumption|]).
  repeat split; lookups; reflexivity.
Qed.

End Videos.

End TransformFacts.

(* ===================================================================== *)
(** * Facts on the regional aggregation                                    *)
(* ===================================================================== *)

Module AggregateFacts.

(** An assignment changes the first entry of the key, or adds one. *)
Lemma set_spec (V : Type) (d : list (pyval * V)) (k : pyval) (v : V) :
  (Py.lookup d k = None /\ Py.set d k v = (d ++ [(k, v)])%list) \/
  (exists pre k0 old post,
     d = (pre ++ (k0, old) :: post)%list /\
     Py.lookup d k = Some old /\
     Py.set d k v = (pre ++ (k0, v) :: post)%list).
Proof.
  induction d as [|[k1 v1] d IH]; simpl.
  - left. split; reflexivity.
  - destruct (Py.key_eqb k1 k) eqn:E.
    + right. exists [], k1, v1, d. repeat split.
    + destruct IH as [[Hn Hs]|(pre & k0 & old & post & Hd & Hl & Hs)].
      * left. rewrite Hs. split; [assumption|reflexivity].
      * right. exists ((k1, v1) :: pre), k0, old, post.
        rewrite Hs, Hd. repeat split. rewrite <- Hd. assumption.
Qed.

Lemma py_sum_ints (zs : list Z) :
  py_sum (map VInt zs) = Ok (VInt (Zsum zs)).
Proof.
  unfold py_sum.
  assert (H : forall a, fold_left (fun acc v => a <- acc ;; Py.add a v)
                          (map VInt zs) (Ok (VInt a))
                        = Ok (VInt (a + Zsum zs))).
  { induction zs as [|z zs IH]; intros a.
    - simpl. rewrite Z.add_0_r. reflexivity.
    - change (fold_left (fun acc v => a <- acc ;; Py.add a v)
                (map VInt zs) (Ok (VInt (a + z)))
              = Ok (VInt (a + (z + Zsum zs)))).
      rewrite IH. f_equal. f_equal. lia. }
  apply H.
Qed.

Lemma Zsum_app (l1 l2 : list Z) : Zsum (l1 ++ l2) = Zsum l1 + Zsum l2.
Proof. induction l1; simpl; lia. Qed.

Lemma map_VInt_app_inv (l1 l2 : list pyval) (zs : list Z) :
  (l1 ++ l2)%list = map VInt zs ->
  exists z1 z2, zs = (z1 ++ z2)%list /\ l1 = map VInt z1 /\ l2 = map VInt z2.
Proof.
  revert zs. induction l1 as [|x l1 IH]; intros zs H; simpl in H.
  - exists [], zs. auto.
  - destruct zs as [|z zs]; [discriminate|]. simpl in H.
    injection H as -> H. destruct (IH _ H) as (z1 & z2 & -> & -> & ->).
    exists (z :: z1), z2. auto.
Qed.


Section Loops.
Context {env : Env}.

(** One turn of the loop touches one entry and leaves the others. *)
Lemma aggregate_video_one_region (now : string)
    (rd rd' : list (pyval * region_stats)) (video : dict) :
  aggregate_video now rd video = Ok rd' ->
  let region := Py.get video "source_region" (VStr "unknown") in
  (exists stats',
     Py.lookup rd region = None /\
     rd' = (rd ++ [(region, stats')])%list /\
     total_videos stats' = 1 /\
     Py.add (VInt 0) (view_count_of video) = Ok (total_views stats')) \/
  (exists pre k stats post stats',
     rd = (pre ++ (k, stats) :: post)%list /\
     Py.lookup rd region = Some stats /\
     rd' = (pre ++ (k, stats') :: post)%list /\
     total_videos stats' = total_videos stats + 1 /\
     Py.add (total_views stats) (view_count_of video)
     = Ok (total_views stats')).
Proof.
  intros H region. unfold aggregate_video in H. fold region in H.
  destruct (negb (Py.hashable region)); [discriminate|].
  do 5 inv_bind H. injection H as <-.
  match goal with |- context [Py.set rd region ?s] =>
    destruct (set_spec rd region s)
      as [[Hn Hs]|(pre & k0 & old & post & Hd & Hl & Hs)]; rewrite Hs
  end.
  - left. eexists. split; [assumption|]. split; [reflexivity|].
    rewrite Hn in *. simpl. split; [reflexivity|]. exact E.
  - right. exists pre, k0, old, post. eexists.
    split; [assumption|]. split; [assumption|]. split; [reflexivity|].
    rewrite Hl in *. simpl. split; [reflexivity|]. exact E.
Qed.

Lemma aggregate_video_views (now : string)
    (rd rd' : list (pyval * region_stats)) (video : dict)
    (zs : list Z) (n : Z) :
  aggregate_video now rd video = Ok rd' ->
  view_count_of video = VInt n ->
  views rd = map VInt zs -> counted rd ->
  exists zs', views rd' = map VInt zs' /\ Zsum zs' = Zsum zs + n /\
              counted rd'.
Proof.
  intros H Hn Hzs Hc.
  destruct (aggregate_video_one_region _ _ _ H)
    as [(stats' & _ & -> & Hv & Ha)
       |(pre & k & stats & post & stats' & -> & _ & -> & Hv & Ha)];
    rewrite Hn in Ha.
  - simpl in Ha. injection Ha as Ha.
    exists (zs ++ [n])%list. unfold views, counted in *.
    rewrite map_app, Hzs, map_app, Zsum_app. simpl. rewrite <- Ha.
    repeat split; try lia.
    apply Forall_app. split; [assumption|]. constructor; [simpl; lia|constructor].
  - unfold views, counted in *. rewrite map_app in Hzs. simpl in Hzs.
    destruct (map_VInt_app_inv _ _ _ Hzs) as (z1 & z2 & -> & H1 & H2).
    destruct z2 as [|z z2]; [discriminate|]. simpl in H2. injection H2 as Hz H2.
    rewrite Hz in Ha. simpl in Ha. injection Ha as Ha.
    exists (z1 ++ (z + n) :: z2)%list.
    rewrite map_app. simpl. rewrite H1, H2, map_app, <- Ha. simpl.
    rewrite !Zsum_app. simpl.
    apply Forall_app in Hc. destruct Hc as [Hc1 Hc2].
    inversion Hc2 as [|? ? Hs Hc3]; subst. simpl in Hs.
    repeat split; try lia.
    apply Forall_app. split; [assumption|]. constructor; [simpl; lia|assumption].
Qed.

Lemma aggregate_loop_views (videos : list dict) :
  forall (n : nat) (rd rd' : list (pyval * region_stats)) (zs ns : list Z),
    aggregate_loop n rd videos = Ok rd' ->
    map view_count_of videos = map VInt ns ->
    views rd = map VInt zs -> counted rd ->
    exists zs', views rd' = map VInt zs' /\ Zsum zs' = Zsum zs + Zsum ns /\
                counted rd'.
Proof.
  induction videos as [|video videos IH]; intros n rd rd' zs ns H Hns Hzs Hc.
  - simpl in H. injection H as <-. destruct ns; [|discriminate].
    exists zs. simpl. repeat split; try assumption. lia.
  - simpl in H. inv_bind H.
    destruct ns as [|m ns]; [discriminate|]. simpl in Hns.
    injection Hns as Hm Hns.
    destruct (aggregate_video_views _ _ _ E Hm Hzs Hc) as (zs1 & Hzs1 & Hs1 & Hc1).
    destruct (IH _ _ _ _ _ H Hns Hzs1 Hc1) as (zs' & Hzs' & Hs' & Hc').
    exists zs'. simpl. repeat split; try assumption. lia.
Qed.

Lemma finalize_views (stats : region_stats) (done : option Aggregate.t) :
  finalize stats = Ok done -> 0 < total_videos stats ->
  exists a, done = Some a /\ Aggregate.total_views a = total_views stats.
Proof.
  unfold finalize. intros H Hpos.
  replace (total_videos stats >? 0) with true in H
    by (symmetry; apply Z.gtb_lt; lia).
  do 5 inv_bind H. injection H as <-. eexists. split; reflexivity.
Qed.

Lemma finalize_loop_views (rd : list (pyval * region_stats)) :
  forall acc aggs : list Aggregate.t,
    finalize_loop rd acc = Ok aggs -> counted rd ->
    map Aggregate.total_views aggs
    = (map Aggregate.total_views acc ++ views rd)%list.
Proof.
  induction rd as [|[region stats] rd IH]; intros acc aggs H Hc; simpl in H.
  - injection H as <-. unfold views. simpl. rewrite app_nil_r. reflexivity.
  - inversion Hc as [|? ? Hpos Hc']; subst. simpl in Hpos.
    inv_bind H.
    destruct (finalize_views _ E Hpos) as (agg & -> & Ha).
    rewrite (IH _ _ H Hc'), map_app. simpl. rewrite Ha, <- app_assoc.
    reflexivity.
Qed.

Lemma int_view_counts (videos : list dict) :
  Forall int_view_count videos ->
  exists ns, map view_count_of videos = map VInt ns.
Proof.
  induction 1 as [|video videos [n Hn] _ [ns IH]].
  - exists []. reflexivity.
  - exists (n :: ns). simpl. congruence.
Qed.

End Loops.

End AggregateFacts.

(* ===================================================================== *)
(** * The properties                                                       *)
(* ===================================================================== *)

Import TransformFacts AggregateFacts.

(** ** The matcher *)

Section Matcher.
Context {env : Env}.

Lemma related_videos_spec (track : dict) (videos : list dict)
    (related : list (dict * F.float)) :
  related_videos track videos = Ok related ->
  related = map (fun v => (v, score_of track v))
                (filter (above_threshold track) videos).
Proof.
  revert related. induction videos as [|v videos IH]; simpl; intros related H.
  - injection H as <-. reflexivity.
  - destruct (_calculate_similarity track v) as [s|e] eqn:Hs; [|discriminate].
    simpl in H.
    destruct (related_videos track videos) as [r|e]; [|discriminate].
    simpl in H. injection H as <-.
    specialize (IH r eq_refl).
    assert (Hsc : score_of track v = s)
      by (unfold score_of; rewrite Hs; reflexivity).
    unfold above_threshold at 1. rewrite Hsc.
    destruct (F.ltb F.f0_3 s); simpl; rewrite ?Hsc, <- IH; reflexivity.
Qed.

Lemma find_related_videos_spec (track : dict) (videos : list dict)
    (out : list (dict * F.float)) :
  _find_related_videos track videos = Ok out ->
  out = firstn 5 (sort_reverse F.ltb snd
          (map (fun v => (v, score_of track v))
               (filter (above_threshold track) videos))).
Proof.
  unfold _find_related_videos. intros H.
  destruct (Py.lower (Py.get track "name" (VStr ""))); [|discriminate].
  destruct (Py.lower (Py.get track "artist_name" (VStr ""))); [|discriminate].
  simpl in H.
  destruct (related_videos track videos) as [r|e] eqn:Hr; [|discriminate].
  simpl in H. injection H as <-.
  rewrite (related_videos_spec _ _ Hr). reflexivity.
Qed.

(** On records whose texts are strings, as the transformed ones are when
    the search fields are strings or missing, the matcher returns. *)
Lemma calculate_similarity_returns (track video : dict) (name artist : string) :
  Py.get track "name" (VStr "") = VStr name ->
  Py.get track "artist_name" (VStr "") = VStr artist ->
  text_video video ->
  exists s, _calculate_similarity track video = Ok s.
Proof.
  intros Hn Ha ([t Ht] & [a Hsa] & [k Hst]).
  unfold _calculate_similarity. rewrite Hn, Ha, Ht, Hsa, Hst.
  cbn [Py.lower Py.str_method bind].
  destruct (Py.truthy _ && Py.truthy _); cbn [bind];
    [destruct (String.eqb _ _ && String.eqb _ _)|]; eauto.
Qed.

Lemma find_related_videos_returns (track : dict) (videos : list dict)
    (name artist : string) :
  Py.get track "name" (VStr "") = VStr name ->
  Py.get track "artist_name" (VStr "") = VStr artist ->
  Forall text_video videos ->
  exists out, _find_related_videos track videos = Ok out.
Proof.
  intros Hn Ha Hv. unfold _find_related_videos. rewrite Hn, Ha.
  cbn [Py.lower Py.str_method bind].
  assert (Hr : exists r, related_videos track videos = Ok r).
  { induction Hv as [|video videos Hvideo _ [r IH]]; simpl; [eauto|].
    destruct (calculate_similarity_returns track Hn Ha Hvideo) as [s Hs].
    rewrite Hs, IH. cbn [bind]. eauto. }
  destruct Hr as [r Hr]. rewrite Hr. cbn [bind]. eauto.
Qed.

(** C1: the list [_find_related_videos] returns holds only candidates
    of the input whose score is not at most 0.3, has at most five
    entries, is in non-increasing order of score, and the candidates of
    one score come in the order they have in [videos]: for every score,
    they are the first ones, in order, of the videos above the threshold
    that have it. *)
Theorem find_related_videos_ranked (track : dict) (videos : list dict)
    (out : list (dict * F.float)) :
  _find_related_videos track videos = Ok out ->
  Forall (fun p => In (fst p) videos /\
                   _calculate_similarity track (fst p) = Ok (snd p) /\
                   F.leb (snd p) F.f0_3 = false) out /\
  (List.length out <= 5)%nat /\
  StronglySorted (fun p q => F.leb (snd q) (snd p) = true) out /\
  forall s : F.float,
    exists rest : list dict,
      filter (fun v => above_threshold track v && F.eqb (score_of track v) s)
             videos
      = (map fst (filter (fun p => F.eqb (snd p) s) out) ++ rest)%list.
Proof.
  intros H.
  assert (Hall : forall v, In v videos ->
            exists s, _calculate_similarity track v = Ok s).
  { revert H. unfold _find_related_videos.
    destruct (Py.lower (Py.get track "name" (VStr ""))); [|discriminate].
    destruct (Py.lower (Py.get track "artist_name" (VStr ""))); [|discriminate].
    simpl.
    destruct (related_videos track videos) as [r|e] eqn:Hr; [|discriminate].
    intros _. clear - Hr. revert r Hr.
    induction videos as [|v videos IH]; simpl; intros r Hr w Hw; [contradiction|].
    destruct (_calculate_similarity track v) as [s|e] eqn:Hs; [|discriminate].
    simpl in Hr.
    destruct (related_videos track videos) as [r'|e]; [|discriminate].
    destruct Hw as [<-|Hw]; [eauto|]. eapply IH; eauto. }
  apply find_related_videos_spec in H.
  set (related := map (fun v => (v, score_of track v))
                      (filter (above_threshold track) videos)) in *.
  assert (Hrel : Forall (fun p => In (fst p) videos /\
                   _calculate_similarity track (fst p) = Ok (snd p) /\
                   F.ltb F.f0_3 (snd p) = true) related).
  { unfold related. rewrite Forall_forall. intros p Hp.
    apply in_map_iff in Hp. destruct Hp as (v & <- & Hv).
    apply filter_In in Hv. destruct Hv as [Hv Habove]. simpl.
    split; [assumption|]. split; [|exact Habove].
    destruct (Hall v Hv) as [s Hs]. unfold score_of. rewrite Hs. reflexivity. }
  assert (Hsorted_rel : Forall (fun p => In (fst p) videos /\
                   _calculate_similarity track (fst p) = Ok (snd p) /\
                   F.ltb F.f0_3 (snd p) = true)
                   (sort_reverse F.ltb snd related)).
  { eapply Permutation_Forall; [apply Permutation_sym, SortFacts.sort_reverse_perm|].
    exact Hrel. }
  subst out.
  split; [|split; [|split]].
  - apply SortFacts.Forall_firstn'.
    eapply Forall_impl; [|exact Hsorted_rel].
    intros p (Hin & Hs & Hlt). repeat split; try assumption.
    apply FloatOrder.ltb_leb_false. assumption.
  - apply firstn_le_length.
  - apply SortFacts.firstn_sorted.
    apply SortFacts.sort_reverse_sorted
      with (ok := fun k => F.is_nan k = false).
    + intros x y Hx Hy. apply FloatOrder.ltb_false_leb; assumption.
    + apply FloatOrder.ltb_leb.
    + apply FloatOrder.leb_trans.
    + eapply Forall_impl; [|exact Hrel].
      intros p (_ & _ & Hlt). apply FloatOrder.ltb_not_nan in Hlt. tauto.
  - intros s.
    destruct (SortFacts.filter_firstn_prefix (fun p : dict * F.float => F.eqb (snd p) s) 5
                (sort_reverse F.ltb snd related)) as [rest Hrest].
    rewrite (SortFacts.sort_reverse_stable F.ltb snd (fun k => F.eqb k s)) in Hrest.
    2:{ intros x y. apply FloatOrder.eqb_ltb_compat. }
    exists (map fst rest).
    rewrite <- map_app, <- Hrest.
    unfold related. clear.
    induction videos as [|v videos IH]; [reflexivity|].
    simpl. destruct (above_threshold track v); simpl; [|exact IH].
    destruct (F.eqb (score_of track v) s); simpl; rewrite IH; reflexivity.
Qed.

Lemma truthy_str (s : string) : s <> "" -> Py.truthy (VStr s) = true.
Proof.
  intros H. simpl. destruct (String.eqb_spec s ""); [contradiction|reflexivity].
Qed.

Lemma get_lookup (d : dict) (key : string) (v default : pyval) :
  Py.lookup d (VStr key) = Some v -> Py.get d key default = v.
Proof. unfold Py.get. intros ->. reflexivity. Qed.

(** C2: when the search fields of the video are non-empty strings that
    equal, once in lower case, the artist and the name of the track, the
    score is exactly 1.0, whatever text the title is. *)
Theorem similarity_exact_match (track video : dict)
    (name artist title search_artist search_track : string) :
  Py.get track "name" (VStr "") = VStr name ->
  Py.get track "artist_name" (VStr "") = VStr artist ->
  Py.get video "title" (VStr "") = VStr title ->
  Py.lookup video (VStr "search_artist") = Some (VStr search_artist) ->
  Py.lookup video (VStr "search_track") = Some (VStr search_track) ->
  search_artist <> "" -> search_track <> "" ->
  Str.lower search_artist = Str.lower artist ->
  Str.lower search_track = Str.lower name ->
  _calculate_similarity track video = Ok F.one.
Proof.
  intros Hn Ha Ht Hsa Hst Hnea Hnet Hla Hlt.
  unfold _calculate_similarity.
  rewrite Hn, Ha, Ht.
  rewrite !(get_lookup _ _ _ Hsa), !(get_lookup _ _ _ Hst).
  rewrite (truthy_str Hnea), (truthy_str Hnet).
  simpl. rewrite Hla, Hlt, !String.eqb_refl. reflexivity.
Qed.

End Matcher.

Lemma find_related_videos_ranked_witness :
  exists out : list (dict * F.float),
    _find_related_videos (env := sample_env) sample_track sample_videos
    = Ok out /\
    out = [(video_searched, F.one); (video_same_title, F.f0_7);
           (video_same_title_again, F.f0_7)] /\
    (List.length out <= 5)%nat /\
    StronglySorted (fun p q => F.leb (snd q) (snd p) = true) out.
Proof.
  eexists. split; [vm_compute; reflexivity|].
  split; [reflexivity|].
  destruct (find_related_videos_ranked (env := sample_env)
              sample_track sample_videos eq_refl) as (_ & Hlen & Hsorted & _).
  split; assumption.
Defined.

Lemma similarity_exact_match_witness :
  _calculate_similarity (env := sample_env) sample_track video_searched
  = Ok F.one.
Proof.
  apply (similarity_exact_match (env := sample_env) sample_track video_searched
           (name := "Hello") (artist := "Adele")
           (title := "Adele - Hello (Official Video)")
           (search_artist := "ADELE") (search_track := "hello"));
    try reflexivity; discriminate.
Defined.

(** ** Dates *)

Section Dates.
Context {env : Env}.

Lemma chars_of_chars (l : list ascii) : Str.chars (Str.of_chars l) = l.
Proof. apply list_ascii_of_string_of_list_ascii. Qed.

Lemma of_chars_chars (s : string) : Str.of_chars (Str.chars s) = s.
Proof. apply string_of_list_ascii_of_string. Qed.

Lemma length_chars (s : string) : List.length (Str.chars s) = String.length s.
Proof. induction s; simpl; congruence. Qed.

(** A slice past the end is the whole string. *)
Lemma take_all (n : nat) (s : string) :
  (String.length s <= n)%nat -> Str.take n s = s.
Proof.
  intros H. unfold Str.take. rewrite firstn_all2 by (rewrite length_chars; lia).
  apply of_chars_chars.
Qed.

(** C3, as the code has it: [_parse_date] never raises on a string; a
    string of length 4 gets [-01-01], one of length 7 gets [-01], one of
    length 10 or more is cut to its first 10 characters, and any other
    string, the empty one too, comes back as it is. *)
Theorem parse_date_string (s : string) :
  _parse_date (VStr s) =
    Ok (VStr (if (String.length s =? 4)%nat then s ++ "-01-01"
              else if (String.length s =? 7)%nat then s ++ "-01"
              else if (10 <=? String.length s)%nat then Str.take 10 s
              else s)).
Proof.
  unfold _parse_date. simpl Py.truthy.
  destruct (String.eqb_spec s "") as [->|Hne]; [reflexivity|].
  simpl negb. cbv iota. simpl Py.len. cbn [bind].
  rewrite str_of_str.
  destruct (Nat.eqb_spec (String.length s) 4) as [E4|E4].
  - replace (Z.of_nat (String.length s) =? 4) with true
      by (symmetry; apply Z.eqb_eq; lia). reflexivity.
  - replace (Z.of_nat (String.length s) =? 4) with false
      by (symmetry; apply Z.eqb_neq; lia).
    destruct (Nat.eqb_spec (String.length s) 7) as [E7|E7].
    + replace (Z.of_nat (String.length s) =? 7) with true
        by (symmetry; apply Z.eqb_eq; lia). reflexivity.
    + replace (Z.of_nat (String.length s) =? 7) with false
        by (symmetry; apply Z.eqb_neq; lia).
      change (try_except (Py.slice_to 10 (VStr s)) any_exn (Ok (VStr "")))
        with (Ok (VStr (Str.take 10 s))).
      destruct (Nat.leb_spec 10 (String.length s)); [reflexivity|].
      rewrite take_all by lia. reflexivity.
Qed.

(** [_parse_date] never raises, whatever it is given. *)
Lemma parse_date_total (v : pyval) : exists r, _parse_date v = Ok r.
Proof.
  unfold _parse_date. destruct (negb (Py.truthy v)); [eauto|].
  unfold try_except.
  match goal with |- context [match ?b with Ok _ => _ | Raise _ => _ end] =>
    destruct b end; simpl; eauto.
Qed.

End Dates.

Lemma parse_date_counterexample :
  _parse_date (env := sample_env) (VStr "12345")
  <> Ok (VStr (spec_date_coercion "12345")).
Proof. vm_compute. discriminate. Qed.

(** ** Audio features *)




(** C9: the derived values of a transformed record depend on the four
    perceptual fields they are computed from and on nothing else, and
    transforming a transformed record again gives the same derived
    values. *)
Theorem enrichment_idempotent :
  (forall (now1 now2 : string) (f1 f2 out1 out2 : dict),
     transform_feature now1 f1 = Ok out1 ->
     transform_feature now2 f2 = Ok out2 ->
     Py.lookup f1 (VStr "danceability") = Py.lookup f2 (VStr "danceability") ->
     Py.lookup f1 (VStr "energy") = Py.lookup f2 (VStr "energy") ->
     Py.lookup f1 (VStr "valence") = Py.lookup f2 (VStr "valence") ->
     Py.lookup f1 (VStr "acousticness") = Py.lookup f2 (VStr "acousticness") ->
     derived out1 = derived out2) /\
  (forall (now1 now2 : string) (feature out1 : dict),
     transform_feature now1 feature = Ok out1 ->
     exists out2 : dict,
       transform_feature now2 out1 = Ok out2 /\ derived out2 = derived out1).
Proof.
  assert (Hderived : forall now feature d e s a i l v lo te k m ts du,
    derived (enriched_feature now feature d e s a i l v lo te k m ts du)
    = derived_of d e v a).
  { intros. unfold derived, derived_fields, enriched_feature. cbn [map].
    lookups. reflexivity. }
  split.
  - intros now1 now2 f1 f2 out1 out2 H1 H2 Ed Ee Ev Ea.
    destruct (transform_feature_inv _ _ H1)
      as (d & e & s & a & i & l & v & lo & te & k & m & ts & du &
          Hd & He & Hs & Ha & Hi & Hl & Hv & ->).
    destruct (transform_feature_inv _ _ H2)
      as (d' & e' & s' & a' & i' & l' & v' & lo' & te' & k' & m' & ts' & du' &
          Hd' & He' & Hs' & Ha' & Hi' & Hl' & Hv' & ->).
    rewrite !Hderived.
    unfold perceptual, Py.get in *.
    rewrite Ed in Hd. rewrite Ee in He. rewrite Ev in Hv. rewrite Ea in Ha.
    replace d' with d by congruence. replace e' with e by congruence.
    replace v' with v by congruence. replace a' with a by congruence.
    reflexivity.
  - intros now1 now2 feature out1 H1.
    destruct (transform_feature_inv _ _ H1)
      as (d & e & s & a & i & l & v & lo & te & k & m & ts & du &
          Hd & He & Hs & Ha & Hi & Hl & Hv & ->).
    eexists. split.
    + apply transform_feature_ok with (d := d) (e := e) (s := s) (a := a)
        (i := i) (l := l) (v := v) (loudness := lo) (tempo := te)
        (key := k) (mode := m) (sig := ts) (dur := du);
        unfold perceptual, int_field, enriched_feature; lookups; reflexivity.
    + rewrite !Hderived. reflexivity.
Qed.

Lemma enrichment_idempotent_witness :
  exists out1 out2 : dict,
    transform_feature "2024-01-01" sample_feature = Ok out1 /\
    transform_feature "2024-06-30" out1 = Ok out2 /\
    derived out2 = derived out1.
Proof.
  eexists. eexists. split; [vm_compute; reflexivity|].
  split; [vm_compute; reflexivity|].
  destruct (proj2 enrichment_idempotent "2024-01-01" "2024-06-30"
              sample_feature _ eq_refl) as (out2 & H2 & Hd).
  vm_compute in H2. injection H2 as <-. exact Hd.
Defined.

(** ** Videos *)

Section Videos.
Context {env : Env}.


End Videos.



(** [v == 0] makes [v > 0] false. *)
Lemma eq_zero_not_gt (v : pyval) :
  Py.key_eqb v (VInt 0) = true -> Py.gt v (VInt 0) = Ok false.
Proof.
  destruct v as [|b|z|f|s|l|l|d]; simpl; try discriminate.
  - destruct b; simpl; [discriminate|reflexivity].
  - unfold Py.gt, Py.compare. simpl. destruct (z ?= 0); try discriminate; reflexivity.
  - unfold Py.gt, Py.compare. simpl.
    destruct (F.compare_Z f 0) as [[| |]|]; try discriminate; reflexivity.
Qed.

(** A divisor above zero is not zero once it is a float. *)
Lemma gt_zero_divisor (v : pyval) (y : Py.num) (fy : F.float) :
  Py.gt v (VInt 0) = Ok true -> Py.as_num v = Some y ->
  Py.to_float y = Ok fy -> F.is_zero fy = false.
Proof.
  unfold Py.gt, Py.compare. intros Hgt Hy Hf. rewrite Hy in Hgt. simpl in Hgt.
  destruct y as [z|f]; simpl in *.
  - destruct (Z.compare_spec z 0); try discriminate.
    unfold Py.float_of_int in Hf.
    destruct (F.is_inf (F.of_Z z)); [discriminate|]. injection Hf as <-.
    apply FloatFacts.of_Z_nonzero. lia.
  - injection Hf as <-. destruct f; simpl in *; try reflexivity.
    discriminate.
Qed.

Lemma truediv_no_zero_division (a v : pyval) :
  Py.gt v (VInt 0) = Ok true -> Py.truediv a v <> Raise ZeroDivisionError.
Proof.
  intros Hgt. unfold Py.truediv.
  destruct (Py.as_num a) as [x|]; [|discriminate].
  destruct (Py.as_num v) as [y|] eqn:Hy; [|destruct x; discriminate].
  assert (Hf : forall fx, (fy <- Py.to_float y ;;
                           f <- Py.float_truediv fx fy ;; Ok (VFloat f))
                          <> Raise ZeroDivisionError).
  { intros fx. destruct (Py.to_float y) as [fy|e] eqn:Hfy.
    - cbn [bind]. unfold Py.float_truediv.
      rewrite (gt_zero_divisor _ Hgt Hy Hfy). discriminate.
    - cbn [bind]. destruct y; simpl in Hfy; [|discriminate].
      unfold Py.float_of_int in Hfy.
      destruct (F.is_inf (F.of_Z z)); congruence. }
  destruct x as [x|fx], y as [y|fy].
  - unfold Py.int_truediv.
    unfold Py.gt, Py.compare in Hgt. rewrite Hy in Hgt. simpl in Hgt.
    destruct (Z.eqb_spec y 0) as [->|]; [discriminate|].
    destruct (F.is_inf (F.div_Z x y)); discriminate.
  - destruct (Py.to_float (Py.NInt x)) as [fx|e] eqn:Hx.
    + cbn [bind]. apply Hf.
    + cbn [bind]. simpl in Hx. unfold Py.float_of_int in Hx.
      destruct (F.is_inf (F.of_Z x)); congruence.
  - cbn [Py.to_float bind]. apply Hf.
  - cbn [Py.to_float bind]. apply Hf.
Qed.

Lemma to_float_exn (y : Py.num) (e : exn) :
  Py.to_float y = Raise e -> e = OverflowError.
Proof.
  destruct y as [z|f]; simpl; [|discriminate].
  unfold Py.float_of_int. destruct (F.is_inf (F.of_Z z)); congruence.
Qed.

(** [+] and [*] raise nothing but [TypeError] and [OverflowError]. *)
Lemma add_mul_exn (a b : pyval) (e : exn) :
  Py.add a b = Raise e \/ Py.mul a b = Raise e ->
  e = TypeError \/ e = OverflowError.
Proof.
  unfold Py.add, Py.mul.
  assert (Hf : forall (x y : Py.num) (op : F.float -> F.float -> F.float),
            (fx <- Py.to_float x ;; fy <- Py.to_float y ;; Ok (VFloat (op fx fy)))
            = Raise e -> e = OverflowError).
  { intros x y op. destruct (Py.to_float x) as [fx|ex] eqn:Hx; cbn [bind].
    - destruct (Py.to_float y) as [fy|ey] eqn:Hy; cbn [bind]; [discriminate|].
      intros H. injection H as <-. exact (to_float_exn _ Hy).
    - intros H. injection H as <-. exact (to_float_exn _ Hx). }
  destruct (Py.as_num a) as [[x|fx]|], (Py.as_num b) as [[y|fy]|];
    intros [H|H]; try discriminate;
    try (left; congruence);
    right; eapply Hf; exact H.
Qed.

Lemma compare_exn (a b : pyval) (e : exn) :
  Py.lt a b = Raise e \/ Py.gt a b = Raise e \/ Py.ge a b = Raise e ->
  e = TypeError.
Proof.
  unfold Py.lt, Py.gt, Py.ge, Py.compare.
  destruct (Py.as_num a), (Py.as_num b); simpl; intros [H|[H|H]]; congruence.
Qed.

(** C7: a video whose [view_count] equals 0 gets 0.0 for its three rates
    and for its score; and on no video at all do the computations raise
    [ZeroDivisionError], the divisions being reached only with a
    [view_count] above 0. *)
Theorem engagement_metrics_zero_views (video : dict) :
  (Py.key_eqb (Py.get video "view_count" (VInt 0)) (VInt 0) = true ->
   _calculate_engagement_metrics video = Ok zero_metrics) /\
  _calculate_engagement_metrics video <> Raise ZeroDivisionError.
Proof.
  split.
  - intros H. unfold _calculate_engagement_metrics.
    rewrite (eq_zero_not_gt _ H). reflexivity.
  - unfold _calculate_engagement_metrics.
    set (view_count := Py.get video "view_count" (VInt 0)).
    set (like_count := Py.get video "like_count" (VInt 0)).
    set (comment_count := Py.get video "comment_count" (VInt 0)).
    destruct (Py.gt view_count (VInt 0)) as [[|]|e] eqn:Hgt; cbn [bind].
    + pose proof (truediv_no_zero_division like_count view_count Hgt) as H1.
      pose proof (truediv_no_zero_division comment_count view_count Hgt) as H2.
      destruct (Py.truediv like_count view_count) as [r1|e1]; [|cbn [bind]; congruence].
      destruct (Py.truediv comment_count view_count) as [r2|e2]; [|cbn [bind]; congruence].
      cbn [bind].
      destruct (Py.add like_count comment_count) as [t|e3] eqn:Ht.
      2:{ cbn [bind]. unfold Py.add in Ht.
          destruct (Py.as_num like_count) as [[?|?]|], (Py.as_num comment_count) as [[?|?]|];
            try discriminate; simpl in Ht;
            repeat match type of Ht with
            | context [Py.float_of_int ?z] =>
                unfold Py.float_of_int in Ht; destruct (F.is_inf (F.of_Z z)); simpl in Ht
            end; congruence. }
      cbn [bind].
      pose proof (truediv_no_zero_division t view_count Hgt) as H3.
      destruct (Py.truediv t view_count) as [r3|e3]; [|cbn [bind]; congruence].
      cbn [bind].
      change (Py.item _ "engagement_rate") with (Ok r3). cbn [bind].
      destruct (Py.mul r3 (VInt 1000)) as [scaled|e4] eqn:Hm; cbn [bind].
      * destruct (Py.min (VInt 100) scaled) as [m|e5] eqn:Hmin; cbn [bind];
          [discriminate|].
        unfold Py.min in Hmin.
        destruct (Py.lt scaled (VInt 100)) as [c|e6] eqn:Hlt; [discriminate|].
        cbn [bind] in Hmin. injection Hmin as <-.
        rewrite (compare_exn scaled (VInt 100) (or_introl Hlt)). discriminate.
      * destruct (add_mul_exn r3 (VInt 1000) (or_intror Hm)); subst; discriminate.
    + discriminate.
    + unfold Py.gt, Py.compare in Hgt.
      destruct (Py.as_num view_count); simpl in Hgt; congruence.
Qed.

Lemma engagement_metrics_zero_views_witness :
  Py.key_eqb (Py.get sample_unviewed_video "view_count" (VInt 0)) (VInt 0)
  = true /\
  _calculate_engagement_metrics sample_unviewed_video = Ok zero_metrics.
Proof.
  split; [reflexivity|].
  apply (proj1 (engagement_metrics_zero_views sample_unviewed_video)).
  reflexivity.
Defined.

(** ** Batches *)

Section Batch.
Context {env : Env}.

Lemma batch_loop_kept (body : string -> dict -> result dict) (raw : list dict) :
  forall (n : nat) (transformed : list dict),
    batch_loop body n raw transformed
    = Ok (transformed ++ kept body n raw)%list.
Proof.
  induction raw as [|record rest IH]; intros n transformed; simpl.
  - rewrite app_nil_r. reflexivity.
  - destruct (body (utcnow_isoformat n) record) as [t|e]; simpl.
    + rewrite IH, <- app_assoc. reflexivity.
    + apply IH.
Qed.

(** C8: the three batch methods never raise; they return, in order, the
    transformed records of the raw records whose transformation does not
    raise, the others being dropped; an empty list gives an empty list. *)
Theorem batch_never_raises :
  (forall raw_tracks : list dict,
     transform_spotify_tracks raw_tracks
     = Ok (kept transform_track 0 raw_tracks)) /\
  (forall raw_features : list dict,
     transform_spotify_features raw_features
     = Ok (kept transform_feature 0 raw_features)) /\
  (forall raw_videos : list dict,
     transform_youtube_videos raw_videos
     = Ok (kept transform_video 0 raw_videos)) /\
  transform_spotify_tracks [] = Ok [] /\
  transform_spotify_features [] = Ok [] /\
  transform_youtube_videos [] = Ok [].
Proof.
  repeat split; try reflexivity; intros raw; apply batch_loop_kept.
Qed.

End Batch.

Example batch_drops_bad_track :
  exists t,
    transform_spotify_tracks (env := sample_env)
      [ [(VStr "track_id", VStr "t1"); (VStr "name", VInt 5)];
        [(VStr "track_id", VStr "t2"); (VStr "name", VStr " Hello   there ");
         (VStr "popularity", VStr "abc"); (VStr "duration_ms", VInt 295000);
         (VStr "release_date", VStr "2015")] ] = Ok [t] /\
    Py.get t "track_id" VNone = VStr "t2" /\
    Py.get t "name" VNone = VStr "Hello there" /\
    Py.get t "popularity" VNone = VInt 0 /\
    Py.get t "duration_seconds" VNone = VInt 295 /\
    Py.get t "release_date" VNone = VStr "2015-01-01" /\
    Py.get t "duration_category" VNone = VStr "medium".
Proof. eexists. vm_compute. repeat split. Qed.

(** ** Regional aggregation *)

Section Regions.
Context {env : Env}.

(** What [transform_youtube_videos] returns has integer view counts. *)
Lemma transformed_videos_int_view_count (raw videos : list dict) :
  transform_youtube_videos raw = Ok videos ->
  Forall int_view_count videos.
Proof.
  intros H. unfold transform_youtube_videos in H.
  rewrite batch_loop_kept in H. injection H as <-. cbn [app].
  generalize 0%nat. induction raw as [|record raw IH]; intros n; simpl.
  - constructor.
  - destruct (transform_video (utcnow_isoformat n) record) as [t|e] eqn:E;
      [|apply IH].
    constructor; [|apply IH].
    destruct (transform_video_inv _ _ E)
      as (view & ? & ? & ? & ? & _ & _ & _ & _ & _ & Lv & _).
    exists view. unfold view_count_of, Py.get. rewrite Lv. reflexivity.
Qed.

(** C6: over videos with integer view counts, as the transformed ones
    have, the [total_views] of the aggregates add up to what the
    [view_count]s of the videos add up to; and each turn of the loop
    either adds the entry of the video's region or updates it, leaving
    every other entry as it is. *)
Theorem regional_totals_preserved :
  (forall (videos : list dict) (aggs : list Aggregate.t),
     Forall int_view_count videos ->
     aggregate_regional_data videos = Ok aggs ->
     exists total : Z,
       py_sum (map Aggregate.total_views aggs) = Ok (VInt total) /\
       py_sum (map view_count_of videos) = Ok (VInt total)) /\
  (forall (now : string) (rd rd' : list (pyval * region_stats))
          (video : dict),
     aggregate_video now rd video = Ok rd' ->
     let region := Py.get video "source_region" (VStr "unknown") in
     (exists stats',
        Py.lookup rd region = None /\
        rd' = (rd ++ [(region, stats')])%list /\
        total_videos stats' = 1 /\
        Py.add (VInt 0) (view_count_of video) = Ok (total_views stats')) \/
     (exists pre k stats post stats',
        rd = (pre ++ (k, stats) :: post)%list /\
        Py.lookup rd region = Some stats /\
        rd' = (pre ++ (k, stats') :: post)%list /\
        total_videos stats' = total_videos stats + 1 /\
        Py.add (total_views stats) (view_count_of video)
        = Ok (total_views stats'))).
Proof.
  split; [|exact aggregate_video_one_region].
  intros videos aggs Hint H.
  unfold aggregate_regional_data in H. inv_bind H.
  destruct (int_view_counts Hint) as [ns Hns].
  destruct (@aggregate_loop_views _ videos 0 [] _ [] ns E Hns
              eq_refl (Forall_nil _)) as (zs' & Hzs' & Hsum & Hc).
  pose proof (@finalize_loop_views _ _ _ H Hc) as Hf. simpl in Hf.
  exists (Zsum ns). rewrite Hf, Hzs', Hns, !py_sum_ints.
  split; [|reflexivity]. f_equal. f_equal. simpl in Hsum. lia.
Qed.

End Regions.

Lemma regional_totals_preserved_witness :
  Forall int_view_count sample_regional_videos /\
  exists aggs : list Aggregate.t,
    aggregate_regional_data (env := sample_env) sample_regional_videos
    = Ok aggs /\
    map Aggregate.total_views aggs = [VInt 17; VInt 5] /\
    exists total : Z,
      py_sum (map Aggregate.total_views aggs) = Ok (VInt total) /\
      py_sum (map view_count_of sample_regional_videos) = Ok (VInt total).
Proof.
  assert (Hint : Forall int_view_count sample_regional_videos).
  { repeat constructor; eexists; reflexivity. }
  split; [exact Hint|].
  eexists. split; [vm_compute; reflexivity|].
  split; [reflexivity|].
  exact (proj1 (regional_totals_preserved (env := sample_env))
           sample_regional_videos _ Hint eq_refl).
Defined.

(** ** Durations *)

(** C10: on two integer durations that are not negative,
    [_calculate_duration_similarity] returns a float between 0.0 and 1.0:
    0.0 when either duration is 0, and otherwise 1.0 minus the quotient of
    the absolute difference by the larger duration, or 0.0 if that is not
    above 0.0. *)
Theorem duration_similarity_range (d1 d2 : Z) :
  0 <= d1 -> 0 <= d2 ->
  exists r : F.float,
    _calculate_duration_similarity (VInt d1) (VInt d2) = Ok (VFloat r) /\
    F.leb F.zero r = true /\ F.leb r F.one = true /\
    (d1 = 0 \/ d2 = 0 -> r = F.zero) /\
    (d1 <> 0 -> d2 <> 0 ->
     r = F.max F.zero
           (F.sub F.one (F.div_Z (Z.abs (d1 - d2)) (Z.max d1 d2)))).
Proof.
  intros H1 H2.
  unfold _calculate_duration_similarity.
  assert (Hk : forall d, Py.key_eqb (VInt d) (VInt 0) = (d =? 0)).
  { intros d. simpl. destruct (Z.compare_spec d 0), (Z.eqb_spec d 0); try lia; reflexivity. }
  rewrite !Hk.
  destruct (Z.eqb_spec d1 0) as [E1|E1]; [|destruct (Z.eqb_spec d2 0) as [E2|E2]]; simpl orb; cbv iota.
  - exists F.zero. repeat split; try reflexivity. intros; contradiction.
  - exists F.zero. repeat split; try reflexivity. intros; contradiction.
  - assert (Hmax : Py.max (VInt d1) (VInt d2) = Ok (VInt (Z.max d1 d2))).
    { unfold Py.max, Py.gt, Py.compare. simpl.
      destruct (Z.compare_spec d2 d1); f_equal; f_equal; lia. }
    change (Py.sub (VInt d1) (VInt d2)) with (Ok (VInt (d1 - d2))).
    cbn [bind].
    change (Py.abs (VInt (d1 - d2))) with (Ok (VInt (Z.abs (d1 - d2)))).
    cbn [bind].
    rewrite Hmax. cbn [bind].
    pose proof (@FloatFacts.div_small (Z.abs (d1 - d2)) (Z.max d1 d2) ltac:(lia)) as Hq.
    set (q := F.div_Z (Z.abs (d1 - d2)) (Z.max d1 d2)) in *.
    assert (Hdiv : Py.truediv (VInt (Z.abs (d1 - d2))) (VInt (Z.max d1 d2)) = Ok (VFloat q)).
    { unfold Py.truediv, Py.int_truediv. simpl Py.as_num. cbv iota beta.
      destruct (Z.eqb_spec (Z.max d1 d2) 0); [lia|]. fold q.
      destruct Hq as [->|(m & e & -> & _)]; reflexivity. }
    rewrite Hdiv. cbn [bind].
    change (Py.sub (VFloat F.one) (VFloat q)) with (Ok (VFloat (F.sub F.one q))).
    cbn [bind].
    set (r := F.sub F.one q).
    exists (F.max F.zero r).
    unfold Py.max, Py.gt, Py.compare. simpl.
    split; [unfold F.max; destruct (F.compare r F.zero) as [[| |]|]; reflexivity|].
    assert (Hb : F.leb F.zero (F.max F.zero r) = true /\ F.leb (F.max F.zero r) F.one = true).
    { unfold F.max. destruct (F.compare r F.zero) as [[| |]|] eqn:Hc; try (split; reflexivity).
      destruct (FloatFacts.one_minus_small Hq Hc). split; assumption. }
    destruct Hb. repeat split; try assumption. intros [?|?]; contradiction.
Qed.

Lemma duration_similarity_range_witness :
  0 <= 295 /\ 0 <= 300 /\
  exists r : F.float,
    _calculate_duration_similarity (VInt 295) (VInt 300) = Ok (VFloat r) /\
    F.leb F.zero r = true /\ F.leb r F.one = true.
Proof.
  split; [lia|]. split; [lia|].
  destruct (duration_similarity_range (d1 := 295) (d2 := 300)
              ltac:(lia) ltac:(lia)) as (r & H & H0 & H1 & _).
  exists r. repeat split; assumption.
Defined.

(** ** The model at work *)

(** The float literals of the source are the correctly rounded decimal
    fractions. *)
Example float_literals :
  F.one = F.of_Z 1 /\
  F.f0_2 = F.div_Z 2 10 /\ F.f0_3 = F.div_Z 3 10 /\ F.f0_4 = F.div_Z 4 10 /\
  F.f0_5 = F.div_Z 5 10 /\ F.f0_6 = F.div_Z 6 10 /\ F.f0_7 = F.div_Z 7 10 /\
  F.f0_8 = F.div_Z 8 10 /\ F.f0_9 = F.div_Z 9 10.
Proof. vm_compute. repeat split. Qed.

Example duration_code_parses :
  _parse_duration_to_seconds (VStr "PT1H2M3S") = Ok 3723 /\
  _parse_duration_to_seconds (VStr "PT") = Ok 0 /\
  _parse_duration_to_seconds (VInt 90) = Ok 0.
Proof. vm_compute. repeat split. Qed.

Example popularity_bins :
  _categorize_popularity 80 = "very_high" /\
  _categorize_popularity 79 = "high".
Proof. split; reflexivity. Qed.

Example invalid_numbers_give_zero :
  _safe_int (VStr "abc") = Ok 0 /\
  _safe_int (VList []) = Ok 0 /\
  _safe_int (VStr " 42 ") = Ok 42 /\
  _safe_int (VFloat (S754_infinity false)) = Raise OverflowError /\
  _safe_float (VStr "abc") = Ok F.zero /\
  _safe_float (VStr "0.3") = Ok F.f0_3.
Proof. vm_compute. repeat split. Qed.

Example clean_text_collapses :
  _clean_text (VStr "  Hello    there ") = Ok "Hello there" /\
  _clean_text VNone = Ok "" /\
  _clean_text (VInt 5) = Raise AttributeError.
Proof. vm_compute. repeat split. Qed.

Example similar_durations :
  _calculate_duration_similarity (VInt 295) (VInt 300)
  = Ok (VFloat (S754_finite false 8857079267161975 (-53))) /\
  _calculate_duration_similarity (VInt 0) (VInt 300) = Ok (VFloat F.zero).
Proof. vm_compute. repeat split. Qed.
